(** * Global Text Summarizer: the ingestion pipeline of [app.py] and [api/index.py]

    A shallow embedding of the two Flask variants of the summarizer.  Both
    expose a [/process] route that picks one input channel (uploaded file,
    URL, literal text), normalises it to text through a format extractor,
    asks an external model for a summary and keeps the last five results in
    a module-level list.

    Layout: Python strings and values; the external libraries as a record of
    oracles ([World]); a state/exception/trace monad for the route handlers;
    [Module App] (src/app.py) and [Module Api] (src/api/index.py); concrete
    worlds used by the examples; then the properties. *)

From stdpp Require Import gmap list strings.
From Stdlib Require Import NArith DecimalString.

Open Scope N_scope.

(** ** Python strings

    A Python [str] is a sequence of Unicode code points.  [lit] embeds an
    ASCII literal; the warning sign used as failure marker is written out as
    its two code points. *)

Definition pystr := list N.

Fixpoint lit (s : string) : pystr :=
  match s with
  | EmptyString => []
  | String a s' => Ascii.N_of_ascii a :: lit s'
  end.

(** [str.isspace] for one code point (CPython's [_PyUnicode_IsWhitespace]). *)
Definition isspace (c : N) : bool :=
  ((9 <=? c) && (c <=? 13)) || ((28 <=? c) && (c <=? 32))
  || (c =? 133) || (c =? 160) || (c =? 5760)
  || ((8192 <=? c) && (c <=? 8202))
  || (c =? 8232) || (c =? 8233) || (c =? 8239) || (c =? 8287) || (c =? 12288).

Fixpoint lstrip (s : pystr) : pystr :=
  match s with
  | [] => []
  | c :: s' => if isspace c then lstrip s' else s
  end.

Definition rstrip (s : pystr) : pystr := reverse (lstrip (reverse s)).

(** [s.strip()] *)
Definition strip (s : pystr) : pystr := rstrip (lstrip s).

(** Truth value of a string: non-empty. *)
Definition truthy (s : pystr) : bool :=
  match s with [] => false | _ :: _ => true end.

(** [s.startswith(p)] *)
Fixpoint startswith (p s : pystr) : bool :=
  match p, s with
  | [], _ => true
  | _ :: _, [] => false
  | a :: p', b :: s' => (a =? b) && startswith p' s'
  end.

(** [sep.join(parts)] *)
Fixpoint join (sep : pystr) (parts : list pystr) : pystr :=
  match parts with
  | [] => []
  | [x] => x
  | x :: rest => x ++ sep ++ join sep rest
  end.

(** [str(n)] for a non-negative integer. *)
Definition str_of_N (n : N) : pystr := lit (NilEmpty.string_of_uint (N.to_uint n)).

(** [x or default] on an optional form field. *)
Definition or_default (x : option pystr) (d : pystr) : pystr :=
  match x with
  | Some s => if truthy s then s else d
  | None => d
  end.

(** [form.get(key, default)]: the default replaces a missing field only. *)
Definition get_default (x : option pystr) (d : pystr) : pystr :=
  match x with Some s => s | None => d end.

(** Truth value of an optional form field ([None] and [""] are false). *)
Definition field_truthy (x : option pystr) : bool :=
  match x with Some s => truthy s | None => false end.

(** The marker U+26A0 U+FE0F that prefixes failure strings in [app.py]. *)
Definition sentinel : pystr := [9888; 65039].

(** The result of a call that may raise; an exception is kept as [str(e)]. *)
Inductive py_result (A : Type) : Type :=
| Returns (a : A)
| Raises (e : pystr).
Arguments Returns {A} a.
Arguments Raises {A} e.

Definition is_returns {A} (r : py_result A) : bool :=
  match r with Returns _ => true | Raises _ => false end.

(** ** The outside world

    Files are byte strings, stored in a file system keyed by path.  Every
    library the handlers call is an oracle of the [World]; the handlers are
    verified for all worlds. *)

Definition Blob := list N.
Definition Path := pystr.

(** A PIL image. *)
Inductive Image : Type := Bitmap (width height : N) (pixels : list N).

Record World : Type := {
  (** [os.path.splitext(name)[1]] *)
  os_path_splitext_ext : pystr -> pystr;
  (** [str.lower] *)
  str_lower : pystr -> pystr;
  (** [os.path.join(dir, name)] *)
  os_path_join : pystr -> pystr -> Path;
  (** name chosen by [tempfile.NamedTemporaryFile(delete=False, suffix=...)] *)
  tempfile_name : gmap Path Blob -> pystr -> Path;
  (** [pdfminer.high_level.extract_text] on the bytes of a file *)
  pdfminer_extract_text : Blob -> py_result pystr;
  (** all pages of a PDF as rendered by pdf2image, in page order *)
  pdf2image_pages : Blob -> py_result (list Image);
  (** [pytesseract.image_to_string(img, lang=..., config=...)] *)
  tesseract : Image -> option pystr -> option pystr -> py_result pystr;
  (** paragraph texts of [docx.Document(path)], in document order *)
  docx_paragraphs : Blob -> py_result (list pystr);
  (** [PIL.Image.open] *)
  pil_open : Blob -> py_result Image;
  (** [img.thumbnail((w, h))] *)
  pil_thumbnail : Image -> N -> N -> Image;
  (** reading a file opened with [encoding="utf-8"] *)
  decode_utf8 : Blob -> py_result pystr;
  (** [requests.get(url, headers, timeout)], [raise_for_status()], [.text] *)
  requests_get : pystr -> option pystr -> N -> py_result pystr;
  (** [BeautifulSoup(html, "html.parser").get_text(separator, strip)] *)
  soup_get_text : pystr -> pystr -> bool -> pystr;
  (** the model call and [response.text]: model, prompt, output-size hint *)
  genai_generate : pystr -> pystr -> option N -> py_result pystr;
  (** [datetime.now().strftime("%Y-%m-%d %H:%M:%S")] *)
  now_strftime : pystr;
  (** [datetime.now().isoformat()] *)
  now_isoformat : pystr
}.

(** The library calls a handler makes, in order. *)
Inductive Call : Type :=
| CallMakedirs (dir : pystr)
| CallTempfile (path : Path)
| CallSave (path : Path)
| CallRemove (path : Path)
| CallPdfText (path : Path)
| CallRender (path : Path) (first_page last_page : N)
| CallOcr (img : Image) (lang config : option pystr)
| CallDocx (path : Path)
| CallImageOpen (path : Path)
| CallReadText (path : Path)
| CallHttpGet (url : pystr) (user_agent : option pystr) (timeout : N)
| CallGenerate (model prompt : pystr) (max_output_tokens : option N).

(** The three input channels of a request. *)
Inductive Channel : Type := FileChannel | UrlChannel | TextChannel.



Definition is_ocr_call (c : Call) : bool :=
  match c with CallOcr _ _ _ => true | _ => false end.

(** Process state: the disk and the module-level [summaries_history]. *)
Record State (R : Type) : Type := {
  fs : gmap Path Blob;
  summaries_history : list R
}.
Arguments fs {R} _.
Arguments summaries_history {R} _.
Arguments Build_State {R} _ _.

(** An uploaded file (werkzeug [FileStorage]). *)
Record FileStorage : Type := {
  filename : pystr;
  content : Blob
}.

(** [bool(file)] is [bool(file.filename)]; a missing part is [None]. *)
Definition file_truthy (f : option FileStorage) : bool :=
  match f with Some s => truthy (filename s) | None => false end.

(** ** Handler monad: state, exceptions and the trace of library calls *)

Definition M (R A : Type) : Type :=
  State R -> py_result A * State R * list Call.

Definition ret {R A} (a : A) : M R A := fun st => (Returns a, st, []).

Definition bind {R A B} (m : M R A) (k : A -> M R B) : M R B :=
  fun st =>
    match m st with
    | (Returns a, st1, t1) =>
        match k a st1 with (r, st2, t2) => (r, st2, t1 ++ t2) end
    | (Raises e, st1, t1) => (Raises e, st1, t1)
    end.

(** [try: m  except Exception as e: handler(str(e))] *)
Definition try_except {R A} (m : M R A) (handler : pystr -> M R A) : M R A :=
  fun st =>
    match m st with
    | (Returns a, st1, t1) => (Returns a, st1, t1)
    | (Raises e, st1, t1) =>
        match handler e st1 with (r, st2, t2) => (r, st2, t1 ++ t2) end
    end.

(** [try: m  finally: cleanup] *)
Definition try_finally {R A} (m : M R A) (cleanup : M R unit) : M R A :=
  fun st =>
    match m st with
    | (r, st1, t1) =>
        match cleanup st1 with
        | (Returns _, st2, t2) => (r, st2, t1 ++ t2)
        | (Raises e, st2, t2) => (Raises e, st2, t1 ++ t2)
        end
    end.

(** A library call that leaves the state alone. *)
Definition call {R A} (c : Call) (r : py_result A) : M R A :=
  fun st => (r, st, [c]).

(** A library call that reads the file at [path]. *)
Definition call_on_file {R A} (c : Call) (path : Path)
    (f : Blob -> py_result A) : M R A :=
  fun st =>
    match fs st !! path with
    | Some b => (f b, st, [c])
    | None => (Raises (lit "No such file or directory"), st, [c])
    end.

Declare Scope py_scope.
Delimit Scope py_scope with py.
Notation "x <- m ;; k" := (bind m (fun x => k))
  (at level 100, m at next level, right associativity) : py_scope.
Notation "m ;;; k" := (bind m (fun _ => k))
  (at level 100, right associativity) : py_scope.
Open Scope py_scope.

(** [for x in xs: acc = body(acc, x)] *)
Fixpoint for_each {R A B} (xs : list A) (acc : B) (body : B -> A -> M R B)
    : M R B :=
  match xs with
  | [] => ret acc
  | x :: xs' => acc' <- body acc x ;; for_each xs' acc' body
  end.

(** File-system effects. *)
Definition file_save {R} (path : Path) (b : Blob) : M R unit :=
  fun st => (Returns tt,
             Build_State (<[path := b]> (fs st)) (summaries_history st),
             [CallSave path]).

Definition os_remove {R} (path : Path) : M R unit :=
  fun st =>
    match fs st !! path with
    | Some _ => (Returns tt,
                 Build_State (delete path (fs st)) (summaries_history st),
                 [CallRemove path])
    | None => (Raises (lit "No such file or directory"), st, [CallRemove path])
    end.

Definition os_makedirs {R} (dir : pystr) : M R unit :=
  fun st => (Returns tt, st, [CallMakedirs dir]).

(** Reading and replacing the history list. *)
Definition get_history {R} : M R (list R) :=
  fun st => (Returns (summaries_history st), st, []).

Definition set_history {R} (h : list R) : M R unit :=
  fun st => (Returns tt, Build_State (fs st) h, []).

(** The pages [first_page..last_page] (1-based, inclusive) of a document. *)
Definition page_range {A} (first_page last_page : N) (pages : list A) : list A :=
  take (N.to_nat (last_page + 1 - first_page))
       (drop (N.to_nat (first_page - 1)) pages).

(** The JSON body returned by [/process]. *)
Record Response (R : Type) : Type := {
  summary : pystr;
  error_msg : pystr;
  history : list R
}.
Arguments summary {R} _.
Arguments error_msg {R} _.
Arguments history {R} _.
Arguments Build_Response {R} _ _ _.

(** The form fields and uploaded file of one request. *)
Record Request : Type := {
  text_input : option pystr;
  url_input : option pystr;
  uploaded_file : option FileStorage;
  input_lang : option pystr;
  output_lang : option pystr;
  summary_length : option pystr;
  summary_format : option pystr
}.

(** [length_map.get(summary_length, 200)] *)
Definition length_map_get (summary_length : pystr) : N :=
  if bool_decide (summary_length = lit "Short") then 100
  else if bool_decide (summary_length = lit "Medium") then 200
  else if bool_decide (summary_length = lit "Long") then 300
  else 200.

Definition nl : pystr := [10].

(** ** src/app.py *)
Module App.

(** One entry of [summaries_history]. *)
Record SummaryRecord : Type := {
  timestamp : pystr;
  rec_summary : pystr;
  language : pystr;
  length : pystr;
  format : pystr
}.

Definition valid_extensions : list pystr :=
  [lit ".pdf"; lit ".docx"; lit ".txt"; lit ".png"; lit ".jpg"; lit ".jpeg"].

Definition image_extensions : list pystr :=
  [lit ".png"; lit ".jpg"; lit ".jpeg"].

(** [ocr_lang_map.get(input_lang, "eng")] *)
Definition ocr_lang_map_get (input_lang : pystr) : pystr :=
  if bool_decide (input_lang = lit "English") then lit "eng"
  else if bool_decide (input_lang = lit "Hindi") then lit "hin"
  else if bool_decide (input_lang = lit "French") then lit "fra"
  else if bool_decide (input_lang = lit "Spanish") then lit "spa"
  else if bool_decide (input_lang = lit "German") then lit "deu"
  else if bool_decide (input_lang = lit "Chinese") then lit "chi_sim"
  else if bool_decide (input_lang = lit "Japanese") then lit "jpn"
  else lit "eng".

Definition psm6 : option pystr := Some (lit "--psm 6").

Definition no_readable_text : pystr := sentinel ++ lit " No readable text found.".
Definition ocr_no_text : pystr := sentinel ++ lit " OCR did not detect any text.".

(** [summaries_history.append(r)], then [pop(0)] when longer than five. *)
Definition history_append {A} (r : A) (h : list A) : list A :=
  let h1 := h ++ [r] in
  if decide (5 < List.length h1)%nat then drop 1 h1 else h1.

Section WithWorld.
Context (w : World).
Local Abbreviation Handler := (M SummaryRecord).

(** app.py:41 *)
Definition extract_pdf_text (file_path : Path) (ocr_lang : pystr) : Handler pystr :=
  try_except
    (text <- call_on_file (CallPdfText file_path) file_path
               (pdfminer_extract_text w) ;;
     if truthy (strip text) then ret text
     else
       images <- call_on_file (CallRender file_path 1 1) file_path
                   (fun b => match pdf2image_pages w b with
                             | Returns pages => Returns (page_range 1 1 pages)
                             | Raises e => Raises e
                             end) ;;
       ocr_text <- for_each images []
                     (fun acc img =>
                        t <- call (CallOcr img (Some ocr_lang) psm6)
                               (tesseract w img (Some ocr_lang) psm6) ;;
                        ret (acc ++ t ++ nl)) ;;
       ret (if truthy (strip ocr_text) then ocr_text else no_readable_text))
    (fun e => ret (sentinel ++ lit " Error extracting PDF text: " ++ e)).

(** app.py:56 *)
Definition extract_docx_text (file_path : Path) : Handler pystr :=
  try_except
    (paras <- call_on_file (CallDocx file_path) file_path (docx_paragraphs w) ;;
     ret (join nl paras))
    (fun e => ret (sentinel ++ lit " Error extracting DOCX: " ++ e)).

(** app.py:64 *)
Definition extract_image_text (file_path : Path) (ocr_lang : pystr) : Handler pystr :=
  try_except
    (img <- call_on_file (CallImageOpen file_path) file_path (pil_open w) ;;
     let img := pil_thumbnail w img 1000 1000 in
     text <- call (CallOcr img (Some ocr_lang) psm6)
               (tesseract w img (Some ocr_lang) psm6) ;;
     ret (if truthy (strip text) then text else ocr_no_text))
    (fun e => ret (sentinel ++ lit " OCR error: " ++ e)).

(** app.py:105-123, the branch taken when a file was uploaded; returns
    [(extracted_text, error_msg)]. *)
Definition process_file (f : FileStorage) (ocr_lang : pystr) : Handler (pystr * pystr) :=
  let file_ext := str_lower w (os_path_splitext_ext w (filename f)) in
  if bool_decide (file_ext ∈ valid_extensions) then
    let file_path := os_path_join w (lit "Uploads") (filename f) in
    os_makedirs (lit "Uploads") ;;;
    file_save file_path (content f) ;;;
    extracted_text <-
      (if bool_decide (file_ext = lit ".pdf") then
         extract_pdf_text file_path ocr_lang
       else if bool_decide (file_ext = lit ".docx") then
         extract_docx_text file_path
       else if bool_decide (file_ext = lit ".txt") then
         call_on_file (CallReadText file_path) file_path (decode_utf8 w)
       else if bool_decide (file_ext ∈ image_extensions) then
         extract_image_text file_path ocr_lang
       else ret []) ;;
    os_remove file_path ;;;
    ret (extracted_text, [])
  else
    ret ([], sentinel ++ lit " Unsupported file type: " ++ file_ext).

(** app.py:124-132 *)
Definition process_url (url : pystr) : Handler (pystr * pystr) :=
  try_except
    (html <- call (CallHttpGet url (Some (lit "GlobalTextSummarizerBot/1.0")) 5)
               (requests_get w url (Some (lit "GlobalTextSummarizerBot/1.0")) 5) ;;
     ret (soup_get_text w html nl true, []))
    (fun e => ret ([], sentinel ++ lit " Error fetching URL: " ++ e)).

(** app.py:104-134, the choice of the input channel. *)
Definition dispatch (req : Request) (ocr_lang : pystr) : Handler (pystr * pystr) :=
  match uploaded_file req with
  | Some f =>
      if truthy (filename f) then process_file f ocr_lang
      else if field_truthy (url_input req) then
        process_url (default [] (url_input req))
      else if field_truthy (text_input req) then
        ret (default [] (text_input req), [])
      else ret ([], [])
  | None =>
      if field_truthy (url_input req) then
        process_url (default [] (url_input req))
      else if field_truthy (text_input req) then
        ret (default [] (text_input req), [])
      else ret ([], [])
  end.

Definition model_name : pystr := lit "gemini-2.5-flash".

(** The f-string handed to the model (app.py:141). *)
Definition build_prompt (output_lang format_prompt : pystr) (word_limit : N)
    (extracted_text : pystr) : pystr :=
  lit "Summarize the following text in " ++ output_lang ++ lit " "
  ++ format_prompt ++ lit ". Keep it concise (~" ++ str_of_N word_limit
  ++ lit " words max):" ++ nl ++ nl ++ extracted_text.

(** The guard of app.py:136. *)
Definition summarizable (extracted_text : pystr) : bool :=
  truthy (strip extracted_text) && negb (startswith sentinel extracted_text).

(** app.py:79, the [/process] route. *)
Definition process (req : Request) : Handler (Response SummaryRecord) :=
  let timestamp := now_strftime w in
  let input_lang := or_default (input_lang req) (lit "English") in
  let output_lang := or_default (output_lang req) (lit "English") in
  let summary_length := or_default (summary_length req) (lit "Medium") in
  let summary_format := or_default (summary_format req) (lit "Paragraph") in
  let word_limit := length_map_get summary_length in
  let format_prompt :=
    if bool_decide (summary_format = lit "Paragraph")
    then lit "as a paragraph" else lit "in bullet points" in
  let ocr_lang := ocr_lang_map_get input_lang in
  dispatched <- dispatch req ocr_lang ;;
  let '(extracted_text, error_msg) := dispatched in
  summarized <-
    (if summarizable extracted_text then
       try_except
         (let prompt :=
            build_prompt output_lang format_prompt word_limit extracted_text in
          summary <- call (CallGenerate model_name prompt None)
                       (genai_generate w model_name prompt None) ;;
          h <- get_history ;;
          set_history
            (history_append
               {| timestamp := timestamp; rec_summary := summary;
                  language := output_lang; length := summary_length;
                  format := summary_format |} h) ;;;
          ret (summary, error_msg))
         (fun e => ret ([], sentinel ++ lit " Summarization failed: " ++ e))
     else ret ([], error_msg)) ;;
  let '(summary, error_msg) := summarized in
  h <- get_history ;;
  ret {| summary := summary; error_msg := error_msg; history := h |}.

(** app.py:162, the [/clear_history] route. *)
Definition clear_history : Handler (list SummaryRecord) :=
  set_history [] ;;; get_history.

End WithWorld.
End App.

(** ** src/api/index.py *)
Module Api.

(** One entry of [summaries_history]. *)
Record SummaryRecord : Type := {
  time : pystr;
  rec_summary : pystr
}.

Definition image_suffixes : list pystr :=
  [lit ".png"; lit ".jpg"; lit ".jpeg"].

(** [h[-5:]] *)
Definition last_five {A} (h : list A) : list A :=
  drop (List.length h - 5)%nat h.

(** [summaries_history.append(r)], then [summaries_history[:] = summaries_history[-5:]]. *)
Definition history_append {A} (r : A) (h : list A) : list A :=
  last_five (h ++ [r]).

Section WithWorld.
Context (w : World).
Local Abbreviation Handler := (M SummaryRecord).

(** api/index.py:33 *)
Definition extract_pdf_text (path : Path) : Handler pystr :=
  try_except
    (text <- call_on_file (CallPdfText path) path (pdfminer_extract_text w) ;;
     if truthy (strip text) then ret text
     else
       images <- call_on_file (CallRender path 1 1) path
                   (fun b => match pdf2image_pages w b with
                             | Returns pages => Returns (page_range 1 1 pages)
                             | Raises e => Raises e
                             end) ;;
       for_each images []
         (fun acc img =>
            t <- call (CallOcr img None None) (tesseract w img None None) ;;
            ret (acc ++ t)))
    (fun e => ret (lit "PDF error: " ++ e)).

(** api/index.py:46 *)
Definition extract_docx_text (path : Path) : Handler pystr :=
  try_except
    (paras <- call_on_file (CallDocx path) path (docx_paragraphs w) ;;
     ret (join nl paras))
    (fun e => ret (lit "DOCX error: " ++ e)).

(** api/index.py:54 *)
Definition extract_image_text (path : Path) : Handler pystr :=
  try_except
    (img <- call_on_file (CallImageOpen path) path (pil_open w) ;;
     call (CallOcr img None None) (tesseract w img None None))
    (fun e => ret (lit "OCR error: " ++ e)).

(** [tempfile.NamedTemporaryFile(delete=False, suffix=suffix)]: the file
    exists, empty, once the call returns. *)
Definition named_temporary_file (suffix : pystr) : Handler Path :=
  fun st =>
    let p := tempfile_name w (fs st) suffix in
    (Returns p, Build_State (<[p := []]> (fs st)) (summaries_history st),
     [CallTempfile p]).

(** api/index.py:84-103; returns [(extracted_text, error)]. *)
Definition process_file (f : FileStorage) : Handler (pystr * pystr) :=
  let suffix := str_lower w (os_path_splitext_ext w (filename f)) in
  path <- named_temporary_file suffix ;;
  file_save path (content f) ;;;
  try_finally
    (if bool_decide (suffix = lit ".pdf") then
       t <- extract_pdf_text path ;; ret (t, [])
     else if bool_decide (suffix = lit ".docx") then
       t <- extract_docx_text path ;; ret (t, [])
     else if bool_decide (suffix ∈ image_suffixes) then
       t <- extract_image_text path ;; ret (t, [])
     else if bool_decide (suffix = lit ".txt") then
       t <- call_on_file (CallReadText path) path (decode_utf8 w) ;; ret (t, [])
     else ret ([], lit "Unsupported file type"))
    (os_remove path).

(** api/index.py:106-113 *)
Definition process_url (url : pystr) : Handler (pystr * pystr) :=
  try_except
    (html <- call (CallHttpGet url None 10) (requests_get w url None 10) ;;
     ret (soup_get_text w html nl false, []))
    (fun e => ret ([], lit "URL error: " ++ e)).

Definition no_input : pystr := lit "No input provided".

(** api/index.py:84-120, the choice of the input channel. *)
Definition dispatch (req : Request) : Handler (pystr * pystr) :=
  match uploaded_file req with
  | Some f =>
      if truthy (filename f) then process_file f
      else if field_truthy (url_input req) then
        process_url (default [] (url_input req))
      else if field_truthy (text_input req) then
        ret (default [] (text_input req), [])
      else ret ([], no_input)
  | None =>
      if field_truthy (url_input req) then
        process_url (default [] (url_input req))
      else if field_truthy (text_input req) then
        ret (default [] (text_input req), [])
      else ret ([], no_input)
  end.

Definition model_name : pystr := lit "gemini-1.5-turbo".

(** The f-string handed to the model (api/index.py:127). *)
Definition build_prompt (output_lang : pystr) (word_limit : N)
    (extracted_text : pystr) : pystr :=
  lit "Summarize in " ++ output_lang ++ lit " within " ++ str_of_N word_limit
  ++ lit " words:" ++ nl ++ nl ++ extracted_text.

(** The guard of api/index.py:123. *)
Definition summarizable (extracted_text error : pystr) : bool :=
  truthy extracted_text && negb (truthy error).

(** api/index.py:67, the [/process] route; the JSON key [error] is the
    field [error_msg] of [Response]. *)
Definition process (req : Request) : Handler (Response SummaryRecord) :=
  let output_lang := get_default (output_lang req) (lit "English") in
  let summary_length := get_default (summary_length req) (lit "Medium") in
  let word_limit := length_map_get summary_length in
  dispatched <- dispatch req ;;
  let '(extracted_text, error) := dispatched in
  summarized <-
    (if summarizable extracted_text error then
       try_except
         (let prompt := build_prompt output_lang word_limit extracted_text in
          summary <- call (CallGenerate model_name prompt (Some (word_limit * 2)))
                       (genai_generate w model_name prompt (Some (word_limit * 2))) ;;
          h <- get_history ;;
          set_history
            (history_append
               {| time := now_isoformat w; rec_summary := summary |} h) ;;;
          ret (summary, error))
         (fun e => ret ([], lit "Gemini error: " ++ e))
     else ret ([], error)) ;;
  let '(summary, error) := summarized in
  h <- get_history ;;
  ret {| summary := summary; error_msg := error; history := h |}.

(** api/index.py:151, the [/clear] route. *)
Definition clear : Handler unit := set_history [].

End WithWorld.
End Api.

(** ** Running a handler *)

Definition result_of {R A} (x : py_result A * State R * list Call) : py_result A :=
  x.1.1.
Definition state_of {R A} (x : py_result A * State R * list Call) : State R :=
  x.1.2.
Definition trace_of {R A} (x : py_result A * State R * list Call) : list Call :=
  x.2.

(** The channel the priority rule selects: file, else URL, else text. *)
Definition selected_channel (req : Request) : option Channel :=
  if file_truthy (uploaded_file req) then Some FileChannel
  else if field_truthy (url_input req) then Some UrlChannel
  else if field_truthy (text_input req) then Some TextChannel
  else None.


(** ** A concrete world for the examples

    POSIX paths and ASCII names; PDFs without a text layer whose pages are
    blank; images without legible text; text files must be ASCII (any byte
    above 127 is rejected, as the byte 255 is by every UTF-8 decoder); the
    model answers with a fixed sentence. *)

Fixpoint ext_scan (name : pystr) (cur : option pystr) : pystr :=
  match name with
  | [] => default [] cur
  | c :: rest =>
      if c =? 46 then ext_scan rest (Some [c])
      else ext_scan rest (match cur with Some e => Some (e ++ [c]) | None => None end)
  end.

Fixpoint skip_dots (name : pystr) : pystr :=
  match name with
  | [] => []
  | c :: rest => if c =? 46 then skip_dots rest else name
  end.

(** [os.path.splitext(name)[1]] for a name without directory separators:
    from the last dot on, the leading dots of the name not counting. *)
Definition ascii_splitext_ext (name : pystr) : pystr :=
  ext_scan (skip_dots name) None.

Definition ascii_lower (s : pystr) : pystr :=
  (fun c => if (65 <=? c) && (c <=? 90) then c + 32 else c) <$> s.

Definition blank_page : Image := Bitmap 1 1 [255].

Definition ascii_decode (b : Blob) : py_result pystr :=
  if forallb (fun c => c <? 128) b then Returns b
  else Raises (lit "'utf-8' codec can't decode byte").

Definition blank_world : World :=
  {| os_path_splitext_ext := ascii_splitext_ext;
     str_lower := ascii_lower;
     os_path_join := fun d n => d ++ lit "/" ++ n;
     tempfile_name := fun _ suffix => lit "/tmp/tmpq3x8z1" ++ suffix;
     pdfminer_extract_text := fun _ => Returns [];
     pdf2image_pages := fun _ => Returns [blank_page; blank_page; blank_page];
     tesseract := fun _ _ _ => Returns [];
     docx_paragraphs := fun _ => Returns [];
     pil_open := fun _ => Returns blank_page;
     pil_thumbnail := fun img _ _ => img;
     decode_utf8 := ascii_decode;
     requests_get := fun _ _ _ => Raises (lit "connection refused");
     soup_get_text := fun html _ _ => html;
     genai_generate := fun _ _ _ => Returns (lit "A summary.");
     now_strftime := lit "2025-01-01 00:00:00";
     now_isoformat := lit "2025-01-01T00:00:00" |}.

(** The same world with corrupt PDFs: pdfminer raises on every file. *)
Definition corrupt_pdf_world : World :=
  {| os_path_splitext_ext := ascii_splitext_ext;
     str_lower := ascii_lower;
     os_path_join := fun d n => d ++ lit "/" ++ n;
     tempfile_name := fun _ suffix => lit "/tmp/tmpq3x8z1" ++ suffix;
     pdfminer_extract_text := fun _ => Raises (lit "No /Root object");
     pdf2image_pages := fun _ => Raises (lit "Unable to get page count");
     tesseract := fun _ _ _ => Returns [];
     docx_paragraphs := fun _ => Returns [];
     pil_open := fun _ => Returns blank_page;
     pil_thumbnail := fun img _ _ => img;
     decode_utf8 := ascii_decode;
     requests_get := fun _ _ _ => Raises (lit "connection refused");
     soup_get_text := fun html _ _ => html;
     genai_generate := fun _ _ _ => Returns (lit "A summary.");
     now_strftime := lit "2025-01-01 00:00:00";
     now_isoformat := lit "2025-01-01T00:00:00" |}.

(** A world whose DOCX files hold two paragraphs, whose images and PDF pages
    read as one line of text, and whose web pages can be fetched. *)
Definition office_world : World :=
  {| os_path_splitext_ext := ascii_splitext_ext;
     str_lower := ascii_lower;
     os_path_join := fun d n => d ++ lit "/" ++ n;
     tempfile_name := fun _ suffix => lit "/tmp/tmpq3x8z1" ++ suffix;
     pdfminer_extract_text := fun _ => Returns (lit "Annual report");
     pdf2image_pages := fun _ => Returns [blank_page; blank_page];
     tesseract := fun _ _ _ => Returns (lit "Invoice 42");
     docx_paragraphs := fun _ => Returns [lit "Minutes"; lit "All agreed."];
     pil_open := fun _ => Returns blank_page;
     pil_thumbnail := fun img _ _ => img;
     decode_utf8 := ascii_decode;
     requests_get := fun _ _ _ => Returns (lit "<p>News</p>");
     soup_get_text := fun _ _ _ => lit "News";
     genai_generate := fun _ _ _ => Returns (lit "A summary.");
     now_strftime := lit "2025-01-01 00:00:00";
     now_isoformat := lit "2025-01-01T00:00:00" |}.

(** The world of [office_world] with the model out of quota. *)
Definition quota_world : World :=
  {| os_path_splitext_ext := ascii_splitext_ext;
     str_lower := ascii_lower;
     os_path_join := fun d n => d ++ lit "/" ++ n;
     tempfile_name := fun _ suffix => lit "/tmp/tmpq3x8z1" ++ suffix;
     pdfminer_extract_text := fun _ => Returns (lit "Annual report");
     pdf2image_pages := fun _ => Returns [blank_page; blank_page];
     tesseract := fun _ _ _ => Returns (lit "Invoice 42");
     docx_paragraphs := fun _ => Returns [lit "Minutes"; lit "All agreed."];
     pil_open := fun _ => Returns blank_page;
     pil_thumbnail := fun img _ _ => img;
     decode_utf8 := ascii_decode;
     requests_get := fun _ _ _ => Returns (lit "<p>News</p>");
     soup_get_text := fun _ _ _ => lit "News";
     genai_generate := fun _ _ _ => Raises (lit "429 quota exceeded");
     now_strftime := lit "2025-01-01 00:00:00";
     now_isoformat := lit "2025-01-01T00:00:00" |}.

Definition url_request (u : pystr) : Request :=
  {| text_input := None; url_input := Some u; uploaded_file := None;
     input_lang := None; output_lang := None;
     summary_length := None; summary_format := None |}.

Definition empty_request : Request :=
  {| text_input := None; url_input := None; uploaded_file := None;
     input_lang := None; output_lang := None;
     summary_length := None; summary_format := None |}.

Definition upload (name : string) (bytes : Blob) : Request :=
  {| text_input := None; url_input := None;
     uploaded_file := Some {| filename := lit name; content := bytes |};
     input_lang := None; output_lang := None;
     summary_length := None; summary_format := None |}.

Definition text_request (t : pystr) : Request :=
  {| text_input := Some t; url_input := None; uploaded_file := None;
     input_lang := None; output_lang := None;
     summary_length := None; summary_format := None |}.

(** An image upload whose form declares Hindi as the input language. *)
Definition hindi_scan : Request :=
  {| text_input := None; url_input := None;
     uploaded_file := Some {| filename := lit "scan.png"; content := [137; 80; 78; 71] |};
     input_lang := Some (lit "Hindi"); output_lang := None;
     summary_length := None; summary_format := None |}.

(** The scenario of a short French paragraph summary of literal text. *)
Definition hello_request : Request :=
  {| text_input := Some (lit "Hello world"); url_input := None;
     uploaded_file := None;
     input_lang := None; output_lang := Some (lit "French");
     summary_length := Some (lit "Short");
     summary_format := Some (lit "Paragraph") |}.

Definition fresh_state {R} : State R := Build_State ∅ [].

(** A disk holding one staged file, and an empty history. *)
Definition staged {R} (path : string) (bytes : Blob) : State R :=
  Build_State {[ lit path := bytes ]} [].

(** ** Vocabulary of the properties *)

(** Empty or whitespace-only. *)
Definition whitespace_only (s : pystr) : bool := forallb isspace s.

(** A handler that never touches [summaries_history]. *)
Definition history_stable {R A} (m : M R A) : Prop :=
  ∀ st, summaries_history (state_of (m st)) = summaries_history st.

(** A handler all of whose library calls satisfy [P]. *)
Definition calls_satisfy {R A} (P : Call → Prop) (m : M R A) : Prop :=
  ∀ st, Forall P (trace_of (m st)).

(** A handler that leaves the disk as it found it. *)
Definition fs_stable {R A} (m : M R A) : Prop :=
  ∀ st, fs (state_of (m st)) = fs st.

(** A handler whose return value, when it returns, satisfies [Q]. *)
Definition returns_satisfy {R A} (Q : A → Prop) (m : M R A) : Prop :=
  ∀ st, match result_of (m st) with Returns a => Q a | Raises _ => True end.

Definition is_generate_call (c : Call) : bool :=
  match c with CallGenerate _ _ _ => true | _ => false end.

(** A handler that always returns: no exception leaves it. *)
Definition never_raises {R A} (m : M R A) : Prop :=
  ∀ st, is_returns (result_of (m st)) = true.

(** The number of calls of a trace that satisfy [P]. *)
Fixpoint count_calls (P : Call → bool) (t : list Call) : nat :=
  match t with
  | [] => 0
  | c :: t' => (if P c then 1 else 0) + count_calls P t'
  end.

(** A handler that makes at most [n] calls satisfying [P]. *)
Definition calls_at_most {R A} (n : nat) (P : Call → bool) (m : M R A) : Prop :=
  ∀ st, (count_calls P (trace_of (m st)) ≤ n)%nat.

(** The language names and OCR codes of [ocr_lang_map]. *)
Definition language_names : list pystr :=
  [lit "English"; lit "Hindi"; lit "French"; lit "Spanish"; lit "German";
   lit "Chinese"; lit "Japanese"].

Definition ocr_codes : list pystr :=
  [lit "eng"; lit "hin"; lit "fra"; lit "spa"; lit "deu"; lit "chi_sim";
   lit "jpn"].

(** The prompt [/process] of [app.py] builds for a request and a text, and
    the record it appends for an answer. *)
Definition app_prompt (req : Request) (extracted_text : pystr) : pystr :=
  App.build_prompt (or_default (output_lang req) (lit "English"))
    (if bool_decide (or_default (summary_format req) (lit "Paragraph")
                     = lit "Paragraph")
     then lit "as a paragraph" else lit "in bullet points")
    (length_map_get (or_default (summary_length req) (lit "Medium")))
    extracted_text.

Definition app_record (w : World) (req : Request) (answer : pystr)
    : App.SummaryRecord :=
  {| App.timestamp := now_strftime w;
     App.rec_summary := answer;
     App.language := or_default (output_lang req) (lit "English");
     App.length := or_default (summary_length req) (lit "Medium");
     App.format := or_default (summary_format req) (lit "Paragraph") |}.

(** The same for [api/index.py], with its output-size hint. *)
Definition api_word_limit (req : Request) : N :=
  length_map_get (get_default (summary_length req) (lit "Medium")).

Definition api_prompt (req : Request) (extracted_text : pystr) : pystr :=
  Api.build_prompt (get_default (output_lang req) (lit "English"))
    (api_word_limit req) extracted_text.

Definition api_record (w : World) (answer : pystr) : Api.SummaryRecord :=
  {| Api.time := now_isoformat w; Api.rec_summary := answer |}.

(** The OCR language [/process] of [app.py] derives from a request. *)
Definition app_ocr_lang (req : Request) : pystr :=
  App.ocr_lang_map_get (or_default (input_lang req) (lit "English")).

(** Where [app.py] stages an upload, and the extension it routes on. *)
Definition app_staging_path (w : World) (f : FileStorage) : Path :=
  os_path_join w (lit "Uploads") (filename f).

Definition declared_ext (w : World) (f : FileStorage) : pystr :=
  str_lower w (os_path_splitext_ext w (filename f)).

(** What every library call of one [/process] request of [app.py] looks
    like: files are touched at the staging path only, PDFs are rendered for
    page 1 only, OCR runs in the request's language with [--psm 6], the URL
    of the request is fetched with the bot header and a 5 second timeout,
    and the model is asked with a prompt built from the request. *)
Definition app_call_ok (w : World) (req : Request) (c : Call) : Prop :=
  match c with
  | CallMakedirs d => d = lit "Uploads"
  | CallTempfile _ => False
  | CallSave p | CallRemove p | CallPdfText p | CallDocx p
  | CallImageOpen p | CallReadText p =>
      ∃ f, uploaded_file req = Some f ∧ p = app_staging_path w f
  | CallRender p first_page last_page =>
      (∃ f, uploaded_file req = Some f ∧ p = app_staging_path w f)
      ∧ first_page = 1 ∧ last_page = 1
  | CallOcr _ lang config =>
      lang = Some (app_ocr_lang req) ∧ config = App.psm6
  | CallHttpGet url ua timeout =>
      url_input req = Some url
      ∧ ua = Some (lit "GlobalTextSummarizerBot/1.0") ∧ timeout = 5
  | CallGenerate model prompt hint =>
      model = App.model_name ∧ hint = None
      ∧ ∃ t, App.summarizable t = true ∧ prompt = app_prompt req t
  end.

(** The same for [api/index.py], started on the disk of [st]: files are
    touched at the temporary path only, OCR runs without language or
    configuration, the URL is fetched without header with a 10 second
    timeout, and the model gets twice the word limit as output-size hint. *)
Definition api_call_ok (w : World) (req : Request) (st : State Api.SummaryRecord)
    (c : Call) : Prop :=
  match c with
  | CallMakedirs _ => False
  | CallTempfile p | CallSave p | CallRemove p | CallPdfText p | CallDocx p
  | CallImageOpen p | CallReadText p =>
      ∃ f, uploaded_file req = Some f
           ∧ p = tempfile_name w (fs st) (declared_ext w f)
  | CallRender p first_page last_page =>
      (∃ f, uploaded_file req = Some f
            ∧ p = tempfile_name w (fs st) (declared_ext w f))
      ∧ first_page = 1 ∧ last_page = 1
  | CallOcr _ lang config => lang = None ∧ config = None
  | CallHttpGet url ua timeout =>
      url_input req = Some url ∧ ua = None ∧ timeout = 10
  | CallGenerate model prompt hint =>
      model = Api.model_name ∧ hint = Some (api_word_limit req * 2)
      ∧ ∃ t, truthy t = true ∧ prompt = api_prompt req t
  end.

(** The model was called during the run and answered. *)
Definition summarization_succeeded (w : World) (t : list Call) : bool :=
  existsb (fun c => match c with
                    | CallGenerate m p k => is_returns (genai_generate w m p k)
                    | _ => false
                    end) t.

(** The routes that touch the history, and serving a sequence of them. *)
Inductive Route : Type :=
| Process (req : Request)
| ClearHistory.

Definition app_serve (w : World) (st : State App.SummaryRecord) (r : Route)
    : State App.SummaryRecord :=
  match r with
  | Process req => state_of (App.process w req st)
  | ClearHistory => state_of (App.clear_history st)
  end.

Definition api_serve (w : World) (st : State Api.SummaryRecord) (r : Route)
    : State Api.SummaryRecord :=
  match r with
  | Process req => state_of (Api.process w req st)
  | ClearHistory => state_of (Api.clear st)
  end.

(** The buffer after appending [rs] one by one to an empty history. *)
Definition app_append_all {A} (rs : list A) : list A :=
  foldl (fun h r => App.history_append r h) [] rs.

Definition api_append_all {A} (rs : list A) : list A :=
  foldl (fun h r => Api.history_append r h) [] rs.

(** * Properties *)

#[local] Arguments N.eqb : simpl never.
#[local] Arguments N.leb : simpl never.
#[local] Arguments N.ltb : simpl never.
#[local] Arguments isspace : simpl never.
#[local] Arguments lit : simpl never.
#[local] Arguments str_of_N : simpl never.

(** ** Strings *)

Lemma lstrip_nil_iff s : lstrip s = [] ↔ whitespace_only s = true.
Proof.
  induction s as [|c s IH]; simpl; [done|].
  destruct (isspace c); simpl; [exact IH|]. split; discriminate.
Qed.

Lemma whitespace_only_lstrip s :
  whitespace_only (lstrip s) = true → whitespace_only s = true.
Proof.
  induction s as [|c s IH]; simpl; [done|].
  destruct (isspace c) eqn:E; simpl; [exact IH|].
  rewrite E. discriminate.
Qed.

Lemma whitespace_only_reverse s :
  whitespace_only (reverse s) = whitespace_only s.
Proof.
  unfold whitespace_only. apply eq_true_iff_eq.
  rewrite !forallb_forall. split; intros H x Hx; apply H;
    rewrite <- list_elem_of_In in *.
  - rewrite elem_of_reverse. exact Hx.
  - rewrite elem_of_reverse in Hx. exact Hx.
Qed.

(** [s.strip()] is empty exactly for an empty or whitespace-only [s]. *)
Lemma strip_nil_iff s : strip s = [] ↔ whitespace_only s = true.
Proof.
  unfold strip, rstrip. split.
  - intros H. apply whitespace_only_lstrip.
    rewrite <- whitespace_only_reverse. apply lstrip_nil_iff.
    apply (f_equal reverse) in H. rewrite reverse_involutive in H. exact H.
  - intros H. apply lstrip_nil_iff in H. rewrite H. reflexivity.
Qed.

Lemma truthy_strip s : truthy (strip s) = negb (whitespace_only s).
Proof.
  destruct (whitespace_only s) eqn:E; simpl.
  - apply strip_nil_iff in E. rewrite E. reflexivity.
  - destruct (strip s) eqn:Es; [|done].
    apply strip_nil_iff in Es. congruence.
Qed.

Lemma whitespace_only_app s t :
  whitespace_only (s ++ t) = whitespace_only s && whitespace_only t.
Proof. apply forallb_app. Qed.

Lemma startswith_app p s : startswith p (p ++ s) = true.
Proof.
  induction p as [|a p IH]; simpl; [done|]. rewrite N.eqb_refl. exact IH.
Qed.

Lemma sentinel_not_whitespace s :
  startswith sentinel s = true → whitespace_only s = false.
Proof.
  destruct s as [|c s]; simpl; [discriminate|].
  destruct (9888 =? c) eqn:E; simpl; [intros _|discriminate].
  apply N.eqb_eq in E. subst c. reflexivity.
Qed.

(** ** The history buffer *)

Lemma app_history_append_length {A} (r : A) h :
  (length h ≤ 5)%nat → (length (App.history_append r h) ≤ 5)%nat.
Proof.
  intros H. unfold App.history_append.
  destruct (decide _) as [Hlt|Hge].
  - rewrite length_drop, length_app. simpl. lia.
  - lia.
Qed.

Lemma api_history_append_length {A} (r : A) h :
  (length (Api.history_append r h) ≤ 5)%nat.
Proof.
  unfold Api.history_append, Api.last_five.
  rewrite length_drop. lia.
Qed.

Lemma app_append_all_last_five {A} (rs : list A) :
  app_append_all rs = drop (length rs - 5) rs.
Proof.
  unfold app_append_all.
  induction rs as [|r rs IH] using rev_ind; [done|].
  rewrite foldl_app. simpl. rewrite IH.
  unfold App.history_append.
  rewrite <- drop_app_le by lia.
  destruct (decide _) as [Hlt|Hge].
  - rewrite drop_drop. f_equal.
    rewrite length_drop, !length_app in *. simpl in *. lia.
  - f_equal. rewrite length_drop, !length_app in *. simpl in *. lia.
Qed.

Lemma api_append_all_last_five {A} (rs : list A) :
  api_append_all rs = drop (length rs - 5) rs.
Proof.
  unfold api_append_all.
  induction rs as [|r rs IH] using rev_ind; [done|].
  rewrite foldl_app. simpl. rewrite IH.
  unfold Api.history_append, Api.last_five.
  rewrite <- drop_app_le by lia.
  rewrite drop_drop. f_equal.
  rewrite length_drop, !length_app. simpl. lia.
Qed.

(** ** Handlers built from the monad's combinators *)

Section Combinators.
Context {R : Type}.
Implicit Types (P : Call → Prop) (st : State R).

Lemma history_stable_ret {A} (a : A) : history_stable (@ret R A a).
Proof. intros st. reflexivity. Qed.

Lemma history_stable_bind {A B} (m : M R A) (k : A → M R B) :
  history_stable m → (∀ a, history_stable (k a)) → history_stable (bind m k).
Proof.
  intros Hm Hk st. specialize (Hm st). unfold state_of, bind in *.
  destruct (m st) as [[[a|e] st1] t1]; simpl in *; [|exact Hm].
  specialize (Hk a st1). unfold state_of in Hk.
  destruct (k a st1) as [[r st2] t2]; simpl in *. congruence.
Qed.

Lemma history_stable_try_except {A} (m : M R A) (h : pystr → M R A) :
  history_stable m → (∀ e, history_stable (h e)) →
  history_stable (try_except m h).
Proof.
  intros Hm Hh st. specialize (Hm st). unfold state_of, try_except in *.
  destruct (m st) as [[[a|e] st1] t1]; simpl in *; [exact Hm|].
  specialize (Hh e st1). unfold state_of in Hh.
  destruct (h e st1) as [[r st2] t2]; simpl in *. congruence.
Qed.

Lemma history_stable_try_finally {A} (m : M R A) (c : M R unit) :
  history_stable m → history_stable c → history_stable (try_finally m c).
Proof.
  intros Hm Hc st. specialize (Hm st). unfold state_of, try_finally in *.
  destruct (m st) as [[r st1] t1]; simpl in *.
  specialize (Hc st1). unfold state_of in Hc.
  destruct (c st1) as [[[u|e] st2] t2]; simpl in *; congruence.
Qed.

Lemma history_stable_call {A} c (r : py_result A) : history_stable (@call R A c r).
Proof. intros st. reflexivity. Qed.

Lemma history_stable_call_on_file {A} c p (f : Blob → py_result A) :
  history_stable (@call_on_file R A c p f).
Proof. intros st. unfold state_of, call_on_file. by destruct (fs st !! p). Qed.

Lemma history_stable_file_save p b : history_stable (@file_save R p b).
Proof. intros st. reflexivity. Qed.

Lemma history_stable_os_remove p : history_stable (@os_remove R p).
Proof. intros st. unfold state_of, os_remove. by destruct (fs st !! p). Qed.

Lemma history_stable_os_makedirs d : history_stable (@os_makedirs R d).
Proof. intros st. reflexivity. Qed.

Lemma history_stable_for_each {A B} (xs : list A) (acc : B) body :
  (∀ b x, history_stable (body b x)) →
  history_stable (@for_each R A B xs acc body).
Proof.
  intros Hb. revert acc. induction xs as [|x xs IH]; intros acc; simpl.
  - apply history_stable_ret.
  - apply history_stable_bind; [apply Hb | intros a; apply IH].
Qed.

Lemma fs_stable_ret {A} (a : A) : fs_stable (@ret R A a).
Proof. intros st. reflexivity. Qed.

Lemma fs_stable_bind {A B} (m : M R A) (k : A → M R B) :
  fs_stable m → (∀ a, fs_stable (k a)) → fs_stable (bind m k).
Proof.
  intros Hm Hk st. specialize (Hm st). unfold state_of, bind in *.
  destruct (m st) as [[[a|e] st1] t1]; simpl in *; [|exact Hm].
  specialize (Hk a st1). unfold state_of in Hk.
  destruct (k a st1) as [[r st2] t2]; simpl in *. congruence.
Qed.

Lemma fs_stable_try_except {A} (m : M R A) (h : pystr → M R A) :
  fs_stable m → (∀ e, fs_stable (h e)) → fs_stable (try_except m h).
Proof.
  intros Hm Hh st. specialize (Hm st). unfold state_of, try_except in *.
  destruct (m st) as [[[a|e] st1] t1]; simpl in *; [exact Hm|].
  specialize (Hh e st1). unfold state_of in Hh.
  destruct (h e st1) as [[r st2] t2]; simpl in *. congruence.
Qed.

Lemma fs_stable_call {A} c (r : py_result A) : fs_stable (@call R A c r).
Proof. intros st. reflexivity. Qed.

Lemma fs_stable_call_on_file {A} c p (f : Blob → py_result A) :
  fs_stable (@call_on_file R A c p f).
Proof. intros st. unfold state_of, call_on_file. by destruct (fs st !! p). Qed.

Lemma fs_stable_for_each {A B} (xs : list A) (acc : B) body :
  (∀ b x, fs_stable (body b x)) → fs_stable (@for_each R A B xs acc body).
Proof.
  intros Hb. revert acc. induction xs as [|x xs IH]; intros acc; simpl.
  - apply fs_stable_ret.
  - apply fs_stable_bind; [apply Hb | intros a; apply IH].
Qed.

Lemma calls_satisfy_ret P {A} (a : A) : calls_satisfy P (@ret R A a).
Proof. intros st. constructor. Qed.

Lemma calls_satisfy_bind P {A B} (m : M R A) (k : A → M R B) :
  calls_satisfy P m → (∀ a, calls_satisfy P (k a)) → calls_satisfy P (bind m k).
Proof.
  intros Hm Hk st. specialize (Hm st). unfold trace_of, bind in *.
  destruct (m st) as [[[a|e] st1] t1]; simpl in *; [|exact Hm].
  specialize (Hk a st1). unfold trace_of in Hk.
  destruct (k a st1) as [[r st2] t2]; simpl in *.
  apply Forall_app; split; assumption.
Qed.

Lemma calls_satisfy_try_except P {A} (m : M R A) (h : pystr → M R A) :
  calls_satisfy P m → (∀ e, calls_satisfy P (h e)) →
  calls_satisfy P (try_except m h).
Proof.
  intros Hm Hh st. specialize (Hm st). unfold trace_of, try_except in *.
  destruct (m st) as [[[a|e] st1] t1]; simpl in *; [exact Hm|].
  specialize (Hh e st1). unfold trace_of in Hh.
  destruct (h e st1) as [[r st2] t2]; simpl in *.
  apply Forall_app; split; assumption.
Qed.

Lemma calls_satisfy_try_finally P {A} (m : M R A) (c : M R unit) :
  calls_satisfy P m → calls_satisfy P c → calls_satisfy P (try_finally m c).
Proof.
  intros Hm Hc st. specialize (Hm st). unfold trace_of, try_finally in *.
  destruct (m st) as [[r st1] t1]; simpl in *.
  specialize (Hc st1). unfold trace_of in Hc.
  destruct (c st1) as [[[u|e] st2] t2]; simpl in *;
    apply Forall_app; split; assumption.
Qed.

Lemma calls_satisfy_call P {A} c (r : py_result A) :
  P c → calls_satisfy P (@call R A c r).
Proof. intros Hc st. repeat constructor. exact Hc. Qed.

Lemma calls_satisfy_call_on_file P {A} c p (f : Blob → py_result A) :
  P c → calls_satisfy P (@call_on_file R A c p f).
Proof.
  intros Hc st. unfold trace_of, call_on_file.
  destruct (fs st !! p); repeat constructor; exact Hc.
Qed.

Lemma calls_satisfy_file_save P p b :
  P (CallSave p) → calls_satisfy P (@file_save R p b).
Proof. intros Hc st. repeat constructor. exact Hc. Qed.

Lemma calls_satisfy_os_remove P p :
  P (CallRemove p) → calls_satisfy P (@os_remove R p).
Proof.
  intros Hc st. unfold trace_of, os_remove.
  destruct (fs st !! p); repeat constructor; exact Hc.
Qed.

Lemma calls_satisfy_os_makedirs P d :
  P (CallMakedirs d) → calls_satisfy P (@os_makedirs R d).
Proof. intros Hc st. repeat constructor. exact Hc. Qed.

Lemma calls_satisfy_get_history P : calls_satisfy P (@get_history R).
Proof. intros st. constructor. Qed.

Lemma calls_satisfy_set_history P h : calls_satisfy P (@set_history R h).
Proof. intros st. constructor. Qed.

Lemma calls_satisfy_for_each P {A B} (xs : list A) (acc : B) body :
  (∀ b x, calls_satisfy P (body b x)) →
  calls_satisfy P (@for_each R A B xs acc body).
Proof.
  intros Hb. revert acc. induction xs as [|x xs IH]; intros acc; simpl.
  - apply calls_satisfy_ret.
  - apply calls_satisfy_bind; [apply Hb | intros a; apply IH].
Qed.

End Combinators.

Create HintDb handler.
#[local] Hint Resolve
  history_stable_ret history_stable_call history_stable_call_on_file
  history_stable_file_save history_stable_os_remove history_stable_os_makedirs
  calls_satisfy_ret calls_satisfy_get_history calls_satisfy_set_history
  fs_stable_ret fs_stable_call fs_stable_call_on_file
  : handler.

(** Walks a handler's syntax: one combinator lemma per construct, a case
    split per branch, [tac] for the side condition of each library call. *)
Ltac handler_walk tac :=
  repeat (intros; cbv zeta; first
    [ solve [auto with handler]
    | apply history_stable_bind
    | apply history_stable_try_except
    | apply history_stable_try_finally
    | apply history_stable_for_each
    | apply fs_stable_bind
    | apply fs_stable_try_except
    | apply fs_stable_for_each
    | apply calls_satisfy_bind
    | apply calls_satisfy_try_except
    | apply calls_satisfy_try_finally
    | apply calls_satisfy_for_each
    | apply calls_satisfy_call; solve [tac]
    | apply calls_satisfy_call_on_file; solve [tac]
    | apply calls_satisfy_file_save; solve [tac]
    | apply calls_satisfy_os_remove; solve [tac]
    | apply calls_satisfy_os_makedirs; solve [tac]
    | match goal with
      | |- history_stable (if ?b then _ else _) => destruct b
      | |- calls_satisfy _ (if ?b then _ else _) => destruct b
      | |- fs_stable (if ?b then _ else _) => destruct b
      | |- fs_stable (match ?x with _ => _ end) => destruct x
      | |- history_stable (match ?x with _ => _ end) => destruct x
      | |- calls_satisfy _ (match ?x with _ => _ end) => destruct x
      end ]).

(** ** Channel selection *)

Lemma app_process_file_history w f l : history_stable (App.process_file w f l).
Proof.
  unfold App.process_file, App.extract_pdf_text, App.extract_docx_text,
    App.extract_image_text.
  handler_walk ltac:(idtac).
Qed.

Lemma app_process_url_history w u : history_stable (App.process_url w u).
Proof. unfold App.process_url. handler_walk ltac:(idtac). Qed.

Lemma app_dispatch_history w req l : history_stable (App.dispatch w req l).
Proof.
  unfold App.dispatch.
  destruct (uploaded_file req) as [f|]; [destruct (truthy (filename f))|];
    repeat case_match;
    auto using app_process_file_history, app_process_url_history with handler.
Qed.

Lemma api_process_file_history w f : history_stable (Api.process_file w f).
Proof.
  unfold Api.process_file, Api.extract_pdf_text, Api.extract_docx_text,
    Api.extract_image_text.
  handler_walk ltac:(idtac). intros st. reflexivity.
Qed.

Lemma api_process_url_history w u : history_stable (Api.process_url w u).
Proof. unfold Api.process_url. handler_walk ltac:(idtac). Qed.

Lemma api_dispatch_history w req : history_stable (Api.dispatch w req).
Proof.
  unfold Api.dispatch.
  destruct (uploaded_file req) as [f|]; [destruct (truthy (filename f))|];
    repeat case_match;
    auto using api_process_file_history, api_process_url_history with handler.
Qed.

Lemma app_dispatch_routing w req l :
  App.dispatch w req l =
  match selected_channel req with
  | Some FileChannel =>
      match uploaded_file req with
      | Some f => App.process_file w f l
      | None => ret ([], [])
      end
  | Some UrlChannel => App.process_url w (default [] (url_input req))
  | Some TextChannel => ret (default [] (text_input req), [])
  | None => ret ([], [])
  end.
Proof.
  unfold App.dispatch, selected_channel, file_truthy.
  destruct (uploaded_file req) as [f|]; [destruct (truthy (filename f))|];
    repeat case_match; reflexivity.
Qed.

Lemma api_dispatch_routing w req :
  Api.dispatch w req =
  match selected_channel req with
  | Some FileChannel =>
      match uploaded_file req with
      | Some f => Api.process_file w f
      | None => ret ([], Api.no_input)
      end
  | Some UrlChannel => Api.process_url w (default [] (url_input req))
  | Some TextChannel => ret (default [] (text_input req), [])
  | None => ret ([], Api.no_input)
  end.
Proof.
  unfold Api.dispatch, selected_channel, file_truthy.
  destruct (uploaded_file req) as [f|]; [destruct (truthy (filename f))|];
    repeat case_match; reflexivity.
Qed.














(** ** What a request does to the history *)

Lemma returns_satisfy_ret {R A} (Q : A → Prop) (a : A) :
  Q a → returns_satisfy Q (@ret R A a).
Proof. intros Ha st. exact Ha. Qed.

Lemma returns_satisfy_bind {R A B} (Q : B → Prop) (m : M R A) (k : A → M R B) :
  (∀ a, returns_satisfy Q (k a)) → returns_satisfy Q (bind m k).
Proof.
  intros Hk st. unfold result_of, bind.
  destruct (m st) as [[[a|e] st1] t1]; simpl; [|done].
  specialize (Hk a st1). unfold result_of in Hk.
  destruct (k a st1) as [[r st2] t2]; simpl in *. exact Hk.
Qed.

Lemma returns_satisfy_try_except {R A} (Q : A → Prop) (m : M R A) h :
  returns_satisfy Q m → (∀ e, returns_satisfy Q (h e)) →
  returns_satisfy Q (try_except m h).
Proof.
  intros Hm Hh st. specialize (Hm st). unfold result_of, try_except in *.
  destruct (m st) as [[[a|e] st1] t1]; simpl in *; [exact Hm|].
  specialize (Hh e st1). unfold result_of in Hh.
  destruct (h e st1) as [[r st2] t2]; simpl in *. exact Hh.
Qed.

Lemma returns_satisfy_try_finally {R A} (Q : A → Prop) (m : M R A) c :
  returns_satisfy Q m → returns_satisfy Q (try_finally m c).
Proof.
  intros Hm st. specialize (Hm st). unfold result_of, try_finally in *.
  destruct (m st) as [[r st1] t1]; simpl in *.
  destruct (c st1) as [[[u|e] st2] t2]; simpl in *; [exact Hm | done].
Qed.

(** The dispatcher of [app.py] never hands back both a text and an error. *)
Lemma app_dispatch_exclusive w req l :
  returns_satisfy (fun p => p.1 = [] ∨ p.2 = []) (App.dispatch w req l).
Proof.
  rewrite app_dispatch_routing.
  destruct (selected_channel req) as [[| |]|];
    try (apply returns_satisfy_ret; simpl; auto).
  - destruct (uploaded_file req) as [f|];
      [|apply returns_satisfy_ret; simpl; auto].
    unfold App.process_file. cbv zeta.
    destruct (bool_decide _); [|apply returns_satisfy_ret; simpl; auto].
    repeat (apply returns_satisfy_bind; intros).
    apply returns_satisfy_ret; simpl; auto.
  - unfold App.process_url. apply returns_satisfy_try_except.
    + apply returns_satisfy_bind; intros.
      apply returns_satisfy_ret; simpl; auto.
    + intros. apply returns_satisfy_ret; simpl; auto.
Qed.

Lemma summarization_succeeded_app w t1 t2 :
  summarization_succeeded w (t1 ++ t2)
  = summarization_succeeded w t1 || summarization_succeeded w t2.
Proof. apply existsb_app. Qed.

Lemma no_generate_no_success w t :
  Forall (fun c => is_generate_call c = false) t →
  summarization_succeeded w t = false.
Proof.
  induction 1 as [|c t Hc _ IH]; [done|].
  simpl. rewrite IH. destruct c; try done.
Qed.

Lemma app_dispatch_no_generate w req l :
  calls_satisfy (fun c => is_generate_call c = false) (App.dispatch w req l).
Proof.
  unfold App.dispatch, App.process_file, App.process_url,
    App.extract_pdf_text, App.extract_docx_text, App.extract_image_text.
  handler_walk ltac:(reflexivity).
Qed.

Lemma api_dispatch_no_generate w req :
  calls_satisfy (fun c => is_generate_call c = false) (Api.dispatch w req).
Proof.
  unfold Api.dispatch, Api.process_file, Api.process_url,
    Api.extract_pdf_text, Api.extract_docx_text, Api.extract_image_text.
  handler_walk ltac:(reflexivity). all: intros st; repeat constructor.
Qed.

(** One request to [app.py]: either no model call answered and the history
    is untouched, or the answer is returned as the summary, without error,
    and one record holding it is appended. *)
Lemma app_process_outcome w req st :
  (summarization_succeeded w (trace_of (App.process w req st)) = false
   ∧ summaries_history (state_of (App.process w req st)) = summaries_history st)
  ∨ (summarization_succeeded w (trace_of (App.process w req st)) = true
     ∧ ∃ r, result_of (App.process w req st)
            = Returns {| summary := App.rec_summary r; error_msg := [];
                         history := App.history_append r (summaries_history st) |}
          ∧ summaries_history (state_of (App.process w req st))
            = App.history_append r (summaries_history st)).
Proof.
  unfold App.process. cbv zeta.
  set (l := App.ocr_lang_map_get _).
  pose proof (app_dispatch_history w req l st) as Hh.
  pose proof (no_generate_no_success w _ (app_dispatch_no_generate w req l st)) as Hg.
  pose proof (app_dispatch_exclusive w req l st) as Hx.
  unfold bind, state_of, trace_of, result_of in *.
  destruct (App.dispatch w req l st) as [[[[t e]|ex] st1] t1]; simpl in *;
    [|left; auto].
  destruct (App.summarizable t) eqn:Es; simpl.
  - unfold try_except, call. simpl.
    destruct (genai_generate w _ _ _) as [s|ex] eqn:Eg; simpl.
    + right. rewrite summarization_succeeded_app, Hg. simpl. rewrite Eg. simpl.
      split; [done|]. eexists (App.Build_SummaryRecord _ s _ _ _). simpl.
      destruct Hx as [->| ->]; [discriminate Es|].
      rewrite Hh. split; reflexivity.
    + left. rewrite summarization_succeeded_app, Hg. simpl. rewrite Eg. simpl.
      auto.
  - left. rewrite !app_nil_r. auto.
Qed.

(** The same for [api/index.py]. *)
Lemma api_process_outcome w req st :
  (summarization_succeeded w (trace_of (Api.process w req st)) = false
   ∧ summaries_history (state_of (Api.process w req st)) = summaries_history st)
  ∨ (summarization_succeeded w (trace_of (Api.process w req st)) = true
     ∧ ∃ r, result_of (Api.process w req st)
            = Returns {| summary := Api.rec_summary r; error_msg := [];
                         history := Api.history_append r (summaries_history st) |}
          ∧ summaries_history (state_of (Api.process w req st))
            = Api.history_append r (summaries_history st)).
Proof.
  unfold Api.process. cbv zeta.
  pose proof (api_dispatch_history w req st) as Hh.
  pose proof (no_generate_no_success w _ (api_dispatch_no_generate w req st)) as Hg.
  unfold bind, state_of, trace_of, result_of in *.
  destruct (Api.dispatch w req st) as [[[[t e]|ex] st1] t1]; simpl in *;
    [|left; auto].
  destruct (Api.summarizable t e) eqn:Es; simpl.
  - unfold try_except, call. simpl.
    destruct (genai_generate w _ _ _) as [s|ex] eqn:Eg; simpl.
    + right. rewrite summarization_succeeded_app, Hg. simpl. rewrite Eg. simpl.
      split; [done|]. eexists (Api.Build_SummaryRecord _ s). simpl.
      unfold Api.summarizable in Es. apply andb_prop in Es as [_ Ee].
      destruct e; [|discriminate Ee].
      rewrite Hh. split; reflexivity.
    + left. rewrite summarization_succeeded_app, Hg. simpl. rewrite Eg. simpl.
      auto.
  - left. rewrite !app_nil_r. auto.
Qed.

Lemma app_serve_bounded w st r :
  (length (summaries_history st) ≤ 5)%nat →
  (length (summaries_history (app_serve w st r)) ≤ 5)%nat.
Proof.
  intros H. destruct r as [req|]; simpl; [|lia].
  destruct (app_process_outcome w req st) as [[_ ->]|[_ [r [_ ->]]]];
    [exact H | by apply app_history_append_length].
Qed.

Lemma api_serve_bounded w st r :
  (length (summaries_history st) ≤ 5)%nat →
  (length (summaries_history (api_serve w st r)) ≤ 5)%nat.
Proof.
  intros H. destruct r as [req|]; simpl; [|lia].
  destruct (api_process_outcome w req st) as [[_ ->]|[_ [r [_ ->]]]];
    [exact H | apply api_history_append_length].
Qed.

Lemma app_serve_all_bounded w routes st :
  (length (summaries_history st) ≤ 5)%nat →
  (length (summaries_history (foldl (app_serve w) st routes)) ≤ 5)%nat.
Proof.
  revert st. induction routes as [|r routes IH]; intros st H; simpl; [exact H|].
  apply IH, app_serve_bounded, H.
Qed.

Lemma api_serve_all_bounded w routes st :
  (length (summaries_history st) ≤ 5)%nat →
  (length (summaries_history (foldl (api_serve w) st routes)) ≤ 5)%nat.
Proof.
  revert st. induction routes as [|r routes IH]; intros st H; simpl; [exact H|].
  apply IH, api_serve_bounded, H.
Qed.

(** C3: appending N records one by one to an empty history leaves, in both
    variants, the last five of them in their order of arrival (all of them
    when N is at most five), hence min(N, 5) records; and no sequence of
    [/process] and clear requests served from an empty history ever leaves
    more than five records. *)
Theorem C3_history_bounded_fifo :
  (∀ (A : Type) (rs : list A),
     app_append_all rs = drop (length rs - 5) rs
     ∧ length (app_append_all rs) = (length rs `min` 5)%nat
     ∧ api_append_all rs = drop (length rs - 5) rs
     ∧ length (api_append_all rs) = (length rs `min` 5)%nat)
  ∧ (∀ w routes disk,
       (length (summaries_history
                  (foldl (app_serve w) (Build_State disk []) routes)) ≤ 5)%nat)
  ∧ (∀ w routes disk,
       (length (summaries_history
                  (foldl (api_serve w) (Build_State disk []) routes)) ≤ 5)%nat).
Proof.
  split; [|split].
  - intros A rs.
    rewrite app_append_all_last_five, api_append_all_last_five, length_drop.
    repeat split; lia.
  - intros. apply app_serve_all_bounded. simpl. lia.
  - intros. apply api_serve_all_bounded. simpl. lia.
Qed.

(** X19: in both variants a request either ends without an answered model call,
    and then the history is exactly what it was before (no input, unsupported
    type, fetch error, a marked failure string from an extractor of [app.py],
    a raised exception, a failed model call), or the model answered, the
    answer is returned as the summary with an empty error field, and exactly
    one record holding it is appended. *)
Theorem history_changes_only_on_success (w : World) (req : Request) :
  (∀ st,
     (summarization_succeeded w (trace_of (App.process w req st)) = false
      ∧ summaries_history (state_of (App.process w req st))
        = summaries_history st)
     ∨ (summarization_succeeded w (trace_of (App.process w req st)) = true
        ∧ ∃ r, result_of (App.process w req st)
               = Returns {| summary := App.rec_summary r; error_msg := [];
                            history := App.history_append r (summaries_history st) |}
             ∧ summaries_history (state_of (App.process w req st))
               = App.history_append r (summaries_history st)))
  ∧ (∀ st,
     (summarization_succeeded w (trace_of (Api.process w req st)) = false
      ∧ summaries_history (state_of (Api.process w req st))
        = summaries_history st)
     ∨ (summarization_succeeded w (trace_of (Api.process w req st)) = true
        ∧ ∃ r, result_of (Api.process w req st)
               = Returns {| summary := Api.rec_summary r; error_msg := [];
                            history := Api.history_append r (summaries_history st) |}
             ∧ summaries_history (state_of (Api.process w req st))
               = Api.history_append r (summaries_history st))).
Proof.
  split; intros st; [apply app_process_outcome | apply api_process_outcome].
Qed.

(** ** Requests without input *)

Lemma app_process_no_input w req st :
  selected_channel req = None →
  App.process w req st
  = (Returns {| summary := []; error_msg := []; history := summaries_history st |},
     st, []).
Proof.
  intros H. unfold App.process. cbv zeta.
  rewrite app_dispatch_routing, H. reflexivity.
Qed.

Lemma api_process_no_input w req st :
  selected_channel req = None →
  Api.process w req st
  = (Returns {| summary := []; error_msg := lit "No input provided";
                history := summaries_history st |},
     st, []).
Proof.
  intros H. unfold Api.process. cbv zeta.
  rewrite api_dispatch_routing, H. reflexivity.
Qed.

(** C6: [app.py] answers a request without any input with an empty summary
    and an empty error field; only [api/index.py] reports that no input was
    provided. *)
Theorem C6_app_no_input_not_reported :
  result_of (App.process blank_world empty_request fresh_state)
  = Returns {| summary := []; error_msg := []; history := [] |}
  ∧ result_of (Api.process blank_world empty_request fresh_state)
    = Returns {| summary := []; error_msg := lit "No input provided";
                 history := [] |}.
Proof.
  rewrite app_process_no_input, api_process_no_input by reflexivity.
  split; reflexivity.
Qed.

(** ** Literal text that starts with the failure marker *)

(** C10: in [app.py], a request whose effective input is literal text that
    starts with the marker is not summarized: no library call is made, the
    state (hence the history) is unchanged, and the response has an empty
    summary and an empty error field. *)
Theorem C10_marked_text_is_dropped (w : World) (req : Request) (t : pystr)
    (st : State App.SummaryRecord) :
  file_truthy (uploaded_file req) = false →
  field_truthy (url_input req) = false →
  text_input req = Some t →
  startswith sentinel t = true →
  selected_channel req = Some TextChannel
  ∧ App.process w req st
    = (Returns {| summary := []; error_msg := [];
                  history := summaries_history st |},
       st, []).
Proof.
  intros Hf Hu Ht Hs.
  assert (Hsel : selected_channel req = Some TextChannel).
  { unfold selected_channel. rewrite Hf, Hu, Ht. simpl.
    destruct t; [discriminate Hs | reflexivity]. }
  split; [exact Hsel|].
  unfold App.process. cbv zeta.
  rewrite app_dispatch_routing, Hsel, Ht. simpl.
  unfold bind, ret. simpl.
  unfold App.summarizable. rewrite Hs, andb_false_r. reflexivity.
Qed.

Lemma C10_marked_text_is_dropped_witness :
  selected_channel (text_request (sentinel ++ lit " invoice overdue"))
  = Some TextChannel
  ∧ App.process blank_world
      (text_request (sentinel ++ lit " invoice overdue")) fresh_state
    = (Returns {| summary := []; error_msg := []; history := [] |},
       fresh_state, []).
Proof.
  apply (C10_marked_text_is_dropped blank_world
           (text_request (sentinel ++ lit " invoice overdue"))
           (sentinel ++ lit " invoice overdue") fresh_state);
    reflexivity.
Defined.

(** ** The PDF extractors *)

Lemma page_range_first {A} (pages : list A) : page_range 1 1 pages = take 1 pages.
Proof. reflexivity. Qed.

Lemma whitespace_only_nl t : whitespace_only (t ++ nl) = whitespace_only t.
Proof. rewrite whitespace_only_app. simpl. apply andb_true_r. Qed.

(** Fast path of [app.py]: a text layer with visible text is returned as it
    is, and neither rendering nor OCR is called. *)
Lemma app_pdf_text_layer w p l (st : State App.SummaryRecord) b text :
  fs st !! p = Some b →
  pdfminer_extract_text w b = Returns text →
  whitespace_only text = false →
  App.extract_pdf_text w p l st = (Returns text, st, [CallPdfText p]).
Proof.
  intros Hp Ht Hw. unfold App.extract_pdf_text, try_except, bind, call_on_file.
  rewrite Hp, Ht, truthy_strip, Hw. reflexivity.
Qed.

(** Slow path of [app.py]: with an empty or whitespace-only text layer, only
    page 1 is rendered and read by OCR, in the language of the request; text
    that is still empty or whitespace-only becomes the marked failure
    string. *)
Lemma app_pdf_ocr_fallback w p l (st : State App.SummaryRecord) b text pages :
  fs st !! p = Some b →
  pdfminer_extract_text w b = Returns text →
  whitespace_only text = true →
  pdf2image_pages w b = Returns pages →
  App.extract_pdf_text w p l st =
  match pages with
  | [] => (Returns App.no_readable_text, st, [CallPdfText p; CallRender p 1 1])
  | page1 :: _ =>
      (match tesseract w page1 (Some l) App.psm6 with
       | Returns t =>
           Returns (if whitespace_only t then App.no_readable_text else t ++ nl)
       | Raises e => Returns (sentinel ++ lit " Error extracting PDF text: " ++ e)
       end,
       st, [CallPdfText p; CallRender p 1 1; CallOcr page1 (Some l) App.psm6])
  end.
Proof.
  intros Hp Ht Hw Hpages.
  unfold App.extract_pdf_text, try_except, bind, call_on_file.
  rewrite Hp, Ht, truthy_strip, Hw. simpl.
  rewrite Hp, Hpages, page_range_first.
  destruct pages as [|page1 rest]; simpl; [reflexivity|].
  unfold bind, call. destruct (tesseract w page1 _ _) as [t|e]; simpl; [|reflexivity].
  rewrite truthy_strip, whitespace_only_nl.
  destruct (whitespace_only t); reflexivity.
Qed.

(** Both tiers of [api/index.py]: the same decision, OCR of page 1 without a
    language, and the OCR text handed back whatever it is. *)
Lemma api_pdf_text_layer w p (st : State Api.SummaryRecord) b text :
  fs st !! p = Some b →
  pdfminer_extract_text w b = Returns text →
  whitespace_only text = false →
  Api.extract_pdf_text w p st = (Returns text, st, [CallPdfText p]).
Proof.
  intros Hp Ht Hw. unfold Api.extract_pdf_text, try_except, bind, call_on_file.
  rewrite Hp, Ht, truthy_strip, Hw. reflexivity.
Qed.

Lemma api_pdf_ocr_fallback w p (st : State Api.SummaryRecord) b text pages :
  fs st !! p = Some b →
  pdfminer_extract_text w b = Returns text →
  whitespace_only text = true →
  pdf2image_pages w b = Returns pages →
  Api.extract_pdf_text w p st =
  match pages with
  | [] => (Returns [], st, [CallPdfText p; CallRender p 1 1])
  | page1 :: _ =>
      (match tesseract w page1 None None with
       | Returns t => Returns t
       | Raises e => Returns (lit "PDF error: " ++ e)
       end,
       st, [CallPdfText p; CallRender p 1 1; CallOcr page1 None None])
  end.
Proof.
  intros Hp Ht Hw Hpages.
  unfold Api.extract_pdf_text, try_except, bind, call_on_file.
  rewrite Hp, Ht, truthy_strip, Hw. simpl.
  rewrite Hp, Hpages, page_range_first.
  destruct pages as [|page1 rest]; simpl; [reflexivity|].
  unfold bind, call. destruct (tesseract w page1 _ _) as [t|e]; reflexivity.
Qed.

(** ** The image extractors *)

(** [app.py]: OCR of the whole (down-scaled) image in the language of the
    request; empty or whitespace-only output becomes the marked failure
    string. *)
Lemma app_image_ocr w p l (st : State App.SummaryRecord) b img :
  fs st !! p = Some b →
  pil_open w b = Returns img →
  App.extract_image_text w p l st =
  (match tesseract w (pil_thumbnail w img 1000 1000) (Some l) App.psm6 with
   | Returns t => Returns (if whitespace_only t then App.ocr_no_text else t)
   | Raises e => Returns (sentinel ++ lit " OCR error: " ++ e)
   end,
   st,
   [CallImageOpen p; CallOcr (pil_thumbnail w img 1000 1000) (Some l) App.psm6]).
Proof.
  intros Hp Hi. unfold App.extract_image_text, try_except, bind, call_on_file, call.
  rewrite Hp, Hi. destruct (tesseract w _ _ _) as [t|e]; simpl; [|reflexivity].
  rewrite truthy_strip. destruct (whitespace_only t); reflexivity.
Qed.

(** [api/index.py]: OCR without a language, the output returned unchecked. *)
Lemma api_image_ocr w p (st : State Api.SummaryRecord) b img :
  fs st !! p = Some b →
  pil_open w b = Returns img →
  Api.extract_image_text w p st =
  (match tesseract w img None None with
   | Returns t => Returns t
   | Raises e => Returns (lit "OCR error: " ++ e)
   end,
   st, [CallImageOpen p; CallOcr img None None]).
Proof.
  intros Hp Hi. unfold Api.extract_image_text, try_except, bind, call_on_file, call.
  rewrite Hp, Hi. destruct (tesseract w _ _ _) as [t|e]; reflexivity.
Qed.

(** ** Staging of uploaded files *)

Lemma try_finally_remove {R A} (m : M R A) p (st : State R) b :
  fs_stable m → fs st !! p = Some b →
  fs (state_of (try_finally m (os_remove p) st)) = delete p (fs st).
Proof.
  intros Hm Hp. specialize (Hm st). unfold state_of, try_finally, os_remove in *.
  destruct (m st) as [[r [fs1 h1]] t1]; simpl in *. subst fs1.
  rewrite Hp. reflexivity.
Qed.

Lemma api_extractors_fs_stable w suffix path :
  fs_stable
    (if bool_decide (suffix = lit ".pdf") then
       t <- Api.extract_pdf_text w path ;; ret (t, [])
     else if bool_decide (suffix = lit ".docx") then
       t <- Api.extract_docx_text w path ;; ret (t, [])
     else if bool_decide (suffix ∈ Api.image_suffixes) then
       t <- Api.extract_image_text w path ;; ret (t, [])
     else if bool_decide (suffix = lit ".txt") then
       t <- call_on_file (CallReadText path) path (decode_utf8 w) ;; ret (t, [])
     else ret ([], lit "Unsupported file type") : M Api.SummaryRecord (pystr * pystr)).
Proof.
  unfold Api.extract_pdf_text, Api.extract_docx_text, Api.extract_image_text.
  handler_walk ltac:(idtac).
Qed.

(** [api/index.py] removes the temporary file on every path out of the file
    branch, whatever the extractor returned or raised. *)
Lemma api_process_file_removes w f (st : State Api.SummaryRecord) :
  fs (state_of (Api.process_file w f st))
  = delete (tempfile_name w (fs st)
              (str_lower w (os_path_splitext_ext w (filename f)))) (fs st).
Proof.
  unfold Api.process_file. cbv zeta.
  set (suffix := str_lower w _).
  unfold bind at 1. unfold Api.named_temporary_file at 1.
  unfold bind at 1. unfold file_save at 1. cbn [fs summaries_history].
  set (tmp := tempfile_name w (fs st) suffix).
  set (st2 := Build_State _ _).
  pose proof (try_finally_remove _ tmp st2 (content f)
                (api_extractors_fs_stable w suffix tmp)) as H.
  unfold state_of in *.
  destruct (try_finally _ _ st2) as [[r st3] t3]; simpl in *.
  rewrite H by (subst st2; simpl; apply lookup_insert_eq).
  subst st2. simpl. by rewrite !delete_insert_eq.
Qed.

Lemma app_extractors_fs_stable w file_ext file_path ocr_lang :
  fs_stable
    (if bool_decide (file_ext = lit ".pdf") then
       App.extract_pdf_text w file_path ocr_lang
     else if bool_decide (file_ext = lit ".docx") then
       App.extract_docx_text w file_path
     else if bool_decide (file_ext = lit ".txt") then
       call_on_file (CallReadText file_path) file_path (decode_utf8 w)
     else if bool_decide (file_ext ∈ App.image_extensions) then
       App.extract_image_text w file_path ocr_lang
     else ret [] : M App.SummaryRecord pystr).
Proof.
  unfold App.extract_pdf_text, App.extract_docx_text, App.extract_image_text.
  handler_walk ltac:(idtac).
Qed.



(** A text file that is not valid UTF-8 makes [/process] of [app.py] raise
    after staging and before the removal. *)
Lemma app_txt_read_fault_leaks w f l (st : State App.SummaryRecord) e :
  str_lower w (os_path_splitext_ext w (filename f)) = lit ".txt" →
  decode_utf8 w (content f) = Raises e →
  App.process_file w f l st
  = (Raises e,
     Build_State (<[os_path_join w (lit "Uploads") (filename f) := content f]> (fs st))
       (summaries_history st),
     [CallMakedirs (lit "Uploads");
      CallSave (os_path_join w (lit "Uploads") (filename f));
      CallReadText (os_path_join w (lit "Uploads") (filename f))]).
Proof.
  intros Hext He. unfold App.process_file. cbv zeta. rewrite Hext.
  unfold bind, os_makedirs, file_save, call_on_file. simpl.
  rewrite lookup_insert_eq, He. reflexivity.
Qed.

(** ** Unsupported extensions *)


Lemma file_selected req f :
  uploaded_file req = Some f → truthy (filename f) = true →
  selected_channel req = Some FileChannel.
Proof.
  intros Hf Ht. unfold selected_channel, file_truthy. by rewrite Hf, Ht.
Qed.



(** ** Where the variants part from the specification *)

(** C1: on a scanned PDF whose text layer is empty and whose first page gives
    no OCR text, the extractor of [api/index.py] returns the empty string as
    an ordinary result, after reading page 1 only, and [/process] answers
    with an empty summary and an empty error; the extractor of [app.py]
    returns the marked failure string on the same file. *)
Theorem C1_api_pdf_empty_success :
  Api.extract_pdf_text blank_world (lit "/tmp/tmpq3x8z1.pdf")
    (staged "/tmp/tmpq3x8z1.pdf" [37; 80; 68; 70])
  = (Returns [], staged "/tmp/tmpq3x8z1.pdf" [37; 80; 68; 70],
     [CallPdfText (lit "/tmp/tmpq3x8z1.pdf");
      CallRender (lit "/tmp/tmpq3x8z1.pdf") 1 1;
      CallOcr blank_page None None])
  ∧ result_of (Api.process blank_world (upload "scan.pdf" [37; 80; 68; 70])
                 fresh_state)
    = Returns {| summary := []; error_msg := []; history := [] |}
  ∧ App.extract_pdf_text blank_world (lit "Uploads/scan.pdf") (lit "eng")
      (staged "Uploads/scan.pdf" [37; 80; 68; 70])
    = (Returns App.no_readable_text, staged "Uploads/scan.pdf" [37; 80; 68; 70],
       [CallPdfText (lit "Uploads/scan.pdf");
        CallRender (lit "Uploads/scan.pdf") 1 1;
        CallOcr blank_page (Some (lit "eng")) App.psm6]).
Proof.
  split; [|split].
  - rewrite (api_pdf_ocr_fallback blank_world _ _ [37; 80; 68; 70] []
               [blank_page; blank_page; blank_page]); reflexivity.
  - vm_compute. reflexivity.
  - rewrite (app_pdf_ocr_fallback blank_world _ _ _ [37; 80; 68; 70] []
               [blank_page; blank_page; blank_page]); reflexivity.
Qed.

(** C4: [app.py] answers three failed requests with an empty summary and an
    empty error field: an image without legible text (the extractor had
    produced its failure string), a corrupt PDF (likewise) and a request
    without input. *)
Theorem C4_app_failures_without_message :
  result_of (App.extract_image_text blank_world (lit "Uploads/scan.png") (lit "eng")
               (staged "Uploads/scan.png" [137; 80; 78; 71]))
  = Returns App.ocr_no_text
  ∧ result_of (App.process blank_world (upload "scan.png" [137; 80; 78; 71])
                 fresh_state)
    = Returns {| summary := []; error_msg := []; history := [] |}
  ∧ result_of (App.extract_pdf_text corrupt_pdf_world (lit "Uploads/a.pdf") (lit "eng")
                 (staged "Uploads/a.pdf" [0]))
    = Returns (sentinel ++ lit " Error extracting PDF text: No /Root object")
  ∧ result_of (App.process corrupt_pdf_world (upload "a.pdf" [0]) fresh_state)
    = Returns {| summary := []; error_msg := []; history := [] |}
  ∧ result_of (App.process blank_world empty_request fresh_state)
    = Returns {| summary := []; error_msg := []; history := [] |}.
Proof.
  repeat (split; [vm_compute; reflexivity|]). vm_compute. reflexivity.
Qed.

(** C7: a text upload that is not valid UTF-8 makes [/process] of [app.py]
    raise between staging and removal: the staged file is still on disk and
    no removal was attempted.  [api/index.py] raises on the same upload with
    its temporary file removed. *)
Theorem C7_app_staged_file_survives_read_fault :
  result_of (App.process blank_world (upload "notes.txt" [255]) fresh_state)
  = Raises (lit "'utf-8' codec can't decode byte")
  ∧ fs (state_of (App.process blank_world (upload "notes.txt" [255]) fresh_state))
      !! lit "Uploads/notes.txt" = Some [255]
  ∧ trace_of (App.process blank_world (upload "notes.txt" [255]) fresh_state)
    = [CallMakedirs (lit "Uploads"); CallSave (lit "Uploads/notes.txt");
       CallReadText (lit "Uploads/notes.txt")]
  ∧ result_of (Api.process blank_world (upload "notes.txt" [255]) fresh_state)
    = Raises (lit "'utf-8' codec can't decode byte")
  ∧ fs (state_of (Api.process blank_world (upload "notes.txt" [255]) fresh_state))
      !! lit "/tmp/tmpq3x8z1.txt" = None.
Proof.
  repeat (split; [vm_compute; reflexivity|]). vm_compute. reflexivity.
Qed.

(** C9: on an image without legible text sent with input language Hindi,
    [api/index.py] calls OCR without any language and hands the empty output
    on as an ordinary result, so that [/process] answers with an empty
    summary and an empty error; [app.py] calls OCR with the code [hin]. *)
Theorem C9_api_image_ocr_without_language :
  trace_of (Api.process blank_world hindi_scan fresh_state)
  = [CallTempfile (lit "/tmp/tmpq3x8z1.png"); CallSave (lit "/tmp/tmpq3x8z1.png");
     CallImageOpen (lit "/tmp/tmpq3x8z1.png"); CallOcr blank_page None None;
     CallRemove (lit "/tmp/tmpq3x8z1.png")]
  ∧ Api.extract_image_text blank_world (lit "/tmp/tmpq3x8z1.png")
      (staged "/tmp/tmpq3x8z1.png" [137; 80; 78; 71])
    = (Returns [], staged "/tmp/tmpq3x8z1.png" [137; 80; 78; 71],
       [CallImageOpen (lit "/tmp/tmpq3x8z1.png"); CallOcr blank_page None None])
  ∧ result_of (Api.process blank_world hindi_scan fresh_state)
    = Returns {| summary := []; error_msg := []; history := [] |}
  ∧ trace_of (App.process blank_world hindi_scan fresh_state)
    = [CallMakedirs (lit "Uploads"); CallSave (lit "Uploads/scan.png");
       CallImageOpen (lit "Uploads/scan.png");
       CallOcr blank_page (Some (lit "hin")) App.psm6;
       CallRemove (lit "Uploads/scan.png")].
Proof.
  split; [vm_compute; reflexivity|]. split; [|split; vm_compute; reflexivity].
  rewrite (api_image_ocr blank_world _ _ [137; 80; 78; 71] blank_page);
    reflexivity.
Qed.

(** C5: on a corrupt PDF the extractor of [api/index.py] returns its error
    text as an ordinary result; [/process] has it summarized and appends a
    record to the history, which is no longer what it was before the failed
    request.  [app.py] leaves the history untouched on the same upload. *)
Theorem C5_api_extraction_fault_recorded :
  result_of (Api.extract_pdf_text corrupt_pdf_world (lit "/tmp/tmpq3x8z1.pdf")
               (staged "/tmp/tmpq3x8z1.pdf" [0]))
  = Returns (lit "PDF error: No /Root object")
  ∧ result_of (Api.process corrupt_pdf_world (upload "a.pdf" [0]) fresh_state)
    = Returns {| summary := lit "A summary."; error_msg := [];
                 history := [{| Api.time := lit "2025-01-01T00:00:00";
                                Api.rec_summary := lit "A summary." |}] |}
  ∧ summaries_history
      (state_of (Api.process corrupt_pdf_world (upload "a.pdf" [0]) fresh_state))
    = [{| Api.time := lit "2025-01-01T00:00:00";
          Api.rec_summary := lit "A summary." |}]
  ∧ summaries_history
      (state_of (App.process corrupt_pdf_world (upload "a.pdf" [0]) fresh_state))
    = [].
Proof.
  repeat (split; [vm_compute; reflexivity|]). vm_compute. reflexivity.
Qed.

(** ** Further facts about the two variants *)

(** In both variants OCR runs on a PDF exactly when the text layer is empty
    or whitespace-only (the document having a first page to render). *)
Lemma app_pdf_ocr_iff w p l (st : State App.SummaryRecord) b text page1 rest :
  fs st !! p = Some b →
  pdfminer_extract_text w b = Returns text →
  pdf2image_pages w b = Returns (page1 :: rest) →
  existsb is_ocr_call (trace_of (App.extract_pdf_text w p l st))
  = whitespace_only text.
Proof.
  intros Hp Ht Hpages. destruct (whitespace_only text) eqn:Hw.
  - by rewrite (app_pdf_ocr_fallback w p l st b text _ Hp Ht Hw Hpages).
  - by rewrite (app_pdf_text_layer w p l st b text Hp Ht Hw).
Qed.

Lemma api_pdf_ocr_iff w p (st : State Api.SummaryRecord) b text page1 rest :
  fs st !! p = Some b →
  pdfminer_extract_text w b = Returns text →
  pdf2image_pages w b = Returns (page1 :: rest) →
  existsb is_ocr_call (trace_of (Api.extract_pdf_text w p st))
  = whitespace_only text.
Proof.
  intros Hp Ht Hpages. destruct (whitespace_only text) eqn:Hw.
  - by rewrite (api_pdf_ocr_fallback w p st b text _ Hp Ht Hw Hpages).
  - by rewrite (api_pdf_text_layer w p st b text Hp Ht Hw).
Qed.

(** The file branch of [app.py] hands a staged file to the extractor of its
    extension. *)
Lemma app_routes_pdf w f l :
  str_lower w (os_path_splitext_ext w (filename f)) = lit ".pdf" →
  App.process_file w f l
  = (os_makedirs (lit "Uploads") ;;;
     file_save (os_path_join w (lit "Uploads") (filename f)) (content f) ;;;
     t <- App.extract_pdf_text w (os_path_join w (lit "Uploads") (filename f)) l ;;
     os_remove (os_path_join w (lit "Uploads") (filename f)) ;;;
     ret (t, [])).
Proof. intros H. unfold App.process_file. cbv zeta. rewrite H. reflexivity. Qed.


Lemma app_routes_image w f l :
  str_lower w (os_path_splitext_ext w (filename f)) ∈ App.image_extensions →
  App.process_file w f l
  = (os_makedirs (lit "Uploads") ;;;
     file_save (os_path_join w (lit "Uploads") (filename f)) (content f) ;;;
     t <- App.extract_image_text w (os_path_join w (lit "Uploads") (filename f)) l ;;
     os_remove (os_path_join w (lit "Uploads") (filename f)) ;;;
     ret (t, [])).
Proof.
  intros H. unfold App.process_file. cbv zeta.
  unfold App.image_extensions in H.
  rewrite !elem_of_cons, elem_of_nil in H.
  destruct H as [->|[->|[->|[]]]]; reflexivity.
Qed.

Lemma api_routes_pdf w f :
  str_lower w (os_path_splitext_ext w (filename f)) = lit ".pdf" →
  Api.process_file w f
  = (path <- Api.named_temporary_file w (lit ".pdf") ;;
     file_save path (content f) ;;;
     try_finally (t <- Api.extract_pdf_text w path ;; ret (t, []))
       (os_remove path)).
Proof. intros H. unfold Api.process_file. cbv zeta. rewrite H. reflexivity. Qed.

Lemma api_routes_image w f :
  str_lower w (os_path_splitext_ext w (filename f)) ∈ Api.image_suffixes →
  Api.process_file w f
  = (path <- Api.named_temporary_file w
               (str_lower w (os_path_splitext_ext w (filename f))) ;;
     file_save path (content f) ;;;
     try_finally (t <- Api.extract_image_text w path ;; ret (t, []))
       (os_remove path)).
Proof.
  intros H. unfold Api.process_file. cbv zeta.
  unfold Api.image_suffixes in H.
  rewrite !elem_of_cons, elem_of_nil in H.
  destruct H as [->|[->|[->|[]]]]; reflexivity.
Qed.

(** [clear] empties the history whatever it held, and doing it again changes
    nothing. *)
Lemma clear_history_empties (st : State App.SummaryRecord) :
  App.clear_history st = (Returns [], Build_State (fs st) [], [])
  ∧ state_of (App.clear_history (state_of (App.clear_history st)))
    = state_of (App.clear_history st).
Proof. split; reflexivity. Qed.

Lemma api_clear_empties (st : State Api.SummaryRecord) :
  Api.clear st = (Returns tt, Build_State (fs st) [], [])
  ∧ state_of (Api.clear (state_of (Api.clear st))) = state_of (Api.clear st).
Proof. split; reflexivity. Qed.

(** A short French paragraph summary of "Hello world" in [app.py]: the text
    channel is used without any extractor, the prompt asks for at most 100
    words, and one record with the request's options is appended. *)
Example app_hello_world :
  App.process blank_world hello_request fresh_state
  = (Returns {| summary := lit "A summary."; error_msg := [];
                history := [{| App.timestamp := lit "2025-01-01 00:00:00";
                               App.rec_summary := lit "A summary.";
                               App.language := lit "French";
                               App.length := lit "Short";
                               App.format := lit "Paragraph" |}] |},
     Build_State ∅ [{| App.timestamp := lit "2025-01-01 00:00:00";
                       App.rec_summary := lit "A summary.";
                       App.language := lit "French";
                       App.length := lit "Short";
                       App.format := lit "Paragraph" |}],
     [CallGenerate (lit "gemini-2.5-flash")
        (lit "Summarize the following text in French as a paragraph. Keep it concise (~100 words max):"
         ++ nl ++ nl ++ lit "Hello world") None]).
Proof. vm_compute. reflexivity. Qed.

Example six_appends :
  app_append_all [1; 2; 3; 4; 5; 6]%nat = [2; 3; 4; 5; 6]%nat
  ∧ api_append_all [1; 2; 3; 4; 5; 6]%nat = [2; 3; 4; 5; 6]%nat.
Proof. split; reflexivity. Qed.

Example leading_dots_have_no_extension :
  ascii_splitext_ext (lit "..a") = [] ∧ ascii_splitext_ext (lit ".bashrc") = []
  ∧ ascii_splitext_ext (lit "a.tar.gz") = lit ".gz".
Proof. repeat split. Qed.

(** * Further properties of the handlers *)

(** ** Extractors catch every fault *)

Lemma never_raises_ret {R A} (a : A) : never_raises (@ret R A a).
Proof. intros st. reflexivity. Qed.

Lemma never_raises_try_except {R A} (m : M R A) h :
  (∀ e, never_raises (h e)) → never_raises (try_except m h).
Proof.
  intros Hh st. unfold result_of, try_except.
  destruct (m st) as [[[a|e] st1] t1]; simpl; [reflexivity|].
  specialize (Hh e st1). unfold result_of in Hh.
  destruct (h e st1) as [[r st2] t2]; simpl in *. exact Hh.
Qed.

Lemma state_ext {R} (a b : State R) :
  fs a = fs b → summaries_history a = summaries_history b → a = b.
Proof. destruct a, b; simpl; intros -> ->; reflexivity. Qed.

(** X1: no extractor of either variant lets an exception out, whatever the
    libraries do or whether the file exists, and none changes the disk or
    the history. *)
Theorem extractors_never_raise (w : World) (p : Path) (l : pystr) :
  (∀ st, is_returns (result_of (App.extract_pdf_text w p l st)) = true
         ∧ state_of (App.extract_pdf_text w p l st) = st)
  ∧ (∀ st, is_returns (result_of (App.extract_docx_text w p st)) = true
           ∧ state_of (App.extract_docx_text w p st) = st)
  ∧ (∀ st, is_returns (result_of (App.extract_image_text w p l st)) = true
           ∧ state_of (App.extract_image_text w p l st) = st)
  ∧ (∀ st, is_returns (result_of (Api.extract_pdf_text w p st)) = true
           ∧ state_of (Api.extract_pdf_text w p st) = st)
  ∧ (∀ st, is_returns (result_of (Api.extract_docx_text w p st)) = true
           ∧ state_of (Api.extract_docx_text w p st) = st)
  ∧ (∀ st, is_returns (result_of (Api.extract_image_text w p st)) = true
           ∧ state_of (Api.extract_image_text w p st) = st).
Proof.
  repeat split;
    try (apply never_raises_try_except; intros; apply never_raises_ret);
    apply state_ext; revert st.
  all: unfold App.extract_pdf_text, App.extract_docx_text, App.extract_image_text,
         Api.extract_pdf_text, Api.extract_docx_text, Api.extract_image_text.
  all: match goal with
       | |- ∀ st, fs (state_of (?m st)) = fs st => change (fs_stable m)
       | |- ∀ st, summaries_history (state_of (?m st)) = summaries_history st =>
           change (history_stable m)
       end.
  all: handler_walk ltac:(idtac).
Qed.

(** ** [/process] after the dispatcher *)

Lemma app_process_after_dispatch w req st :
  App.process w req st =
  match App.dispatch w req (app_ocr_lang req) st with
  | (Raises e, st1, t1) => (Raises e, st1, t1)
  | (Returns (t, err), st1, t1) =>
      if App.summarizable t then
        match genai_generate w App.model_name (app_prompt req t) None with
        | Returns s =>
            (Returns {| summary := s; error_msg := err;
                        history := App.history_append (app_record w req s)
                                     (summaries_history st1) |},
             Build_State (fs st1)
               (App.history_append (app_record w req s) (summaries_history st1)),
             t1 ++ [CallGenerate App.model_name (app_prompt req t) None])
        | Raises e =>
            (Returns {| summary := [];
                        error_msg := sentinel ++ lit " Summarization failed: " ++ e;
                        history := summaries_history st1 |},
             st1, t1 ++ [CallGenerate App.model_name (app_prompt req t) None])
        end
      else
        (Returns {| summary := []; error_msg := err;
                    history := summaries_history st1 |}, st1, t1)
  end.
Proof.
  unfold App.process, app_ocr_lang, app_prompt, app_record. cbv zeta.
  unfold bind at 1.
  destruct (App.dispatch w req _ st) as [[[[t err]|e] st1] t1]; [|reflexivity].
  destruct (App.summarizable t); simpl.
  - unfold bind, try_except, call, get_history, set_history, ret. simpl.
    destruct (genai_generate w _ _ _) as [s|e]; simpl; reflexivity.
  - unfold bind, get_history, ret. simpl. by rewrite !app_nil_r.
Qed.

Lemma api_process_after_dispatch w req st :
  Api.process w req st =
  match Api.dispatch w req st with
  | (Raises e, st1, t1) => (Raises e, st1, t1)
  | (Returns (t, err), st1, t1) =>
      if Api.summarizable t err then
        match genai_generate w Api.model_name (api_prompt req t)
                (Some (api_word_limit req * 2)) with
        | Returns s =>
            (Returns {| summary := s; error_msg := err;
                        history := Api.history_append (api_record w s)
                                     (summaries_history st1) |},
             Build_State (fs st1)
               (Api.history_append (api_record w s) (summaries_history st1)),
             t1 ++ [CallGenerate Api.model_name (api_prompt req t)
                      (Some (api_word_limit req * 2))])
        | Raises e =>
            (Returns {| summary := []; error_msg := lit "Gemini error: " ++ e;
                        history := summaries_history st1 |},
             st1,
             t1 ++ [CallGenerate Api.model_name (api_prompt req t)
                      (Some (api_word_limit req * 2))])
        end
      else
        (Returns {| summary := []; error_msg := err;
                    history := summaries_history st1 |}, st1, t1)
  end.
Proof.
  unfold Api.process, api_prompt, api_word_limit, api_record. cbv zeta.
  unfold bind at 1.
  destruct (Api.dispatch w req st) as [[[[t err]|e] st1] t1]; [|reflexivity].
  destruct (Api.summarizable t err); simpl.
  - unfold bind, try_except, call, get_history, set_history, ret. simpl.
    destruct (genai_generate w _ _ _) as [s|e]; simpl; reflexivity.
  - unfold bind, get_history, ret. simpl. by rewrite !app_nil_r.
Qed.


Lemma api_process_url_fs w u : fs_stable (Api.process_url w u).
Proof. unfold Api.process_url. handler_walk ltac:(idtac). Qed.


Lemma api_process_follows_dispatch w req st :
  fs (state_of (Api.process w req st)) = fs (state_of (Api.dispatch w req st))
  ∧ is_returns (result_of (Api.process w req st))
    = is_returns (result_of (Api.dispatch w req st)).
Proof.
  rewrite api_process_after_dispatch. unfold state_of, result_of.
  destruct (Api.dispatch w req st) as [[[[t err]|e] st1] t1]; [|done].
  destruct (Api.summarizable t err); [|done].
  destruct (genai_generate w _ _ _); done.
Qed.

(** ** The disk after a request *)


(** X3: the disk after any request to [api/index.py]: the old disk without
    the temporary path when a file was uploaded, whatever its extension and
    whether the request returned or raised, and the old disk otherwise. *)
Theorem api_disk_after_request (w : World) (req : Request)
    (st : State Api.SummaryRecord) :
  fs (state_of (Api.process w req st)) =
  match uploaded_file req with
  | Some f =>
      if truthy (filename f)
      then delete (tempfile_name w (fs st) (declared_ext w f)) (fs st)
      else fs st
  | None => fs st
  end.
Proof.
  destruct (api_process_follows_dispatch w req st) as [-> _].
  rewrite api_dispatch_routing. unfold selected_channel, file_truthy.
  destruct (uploaded_file req) as [f|].
  - destruct (truthy (filename f)); simpl.
    + apply api_process_file_removes.
    + destruct (field_truthy (url_input req)); [apply api_process_url_fs|].
      destruct (field_truthy (text_input req)); reflexivity.
  - destruct (field_truthy (url_input req)); [apply api_process_url_fs|].
    destruct (field_truthy (text_input req)); reflexivity.
Qed.

(** ** The response *)

(** X4: whenever [/process] returns, in either variant, the history in the
    response is the stored history, and the summary and the error message
    are never both non-empty. *)
Theorem response_is_consistent (w : World) (req : Request) :
  (∀ st, match result_of (App.process w req st) with
         | Returns resp =>
             history resp = summaries_history (state_of (App.process w req st))
             ∧ (summary resp = [] ∨ error_msg resp = [])
         | Raises _ => True
         end)
  ∧ (∀ st, match result_of (Api.process w req st) with
           | Returns resp =>
               history resp = summaries_history (state_of (Api.process w req st))
               ∧ (summary resp = [] ∨ error_msg resp = [])
           | Raises _ => True
           end).
Proof.
  split; intros st.
  - rewrite app_process_after_dispatch.
    pose proof (app_dispatch_exclusive w req (app_ocr_lang req) st) as Hx.
    unfold result_of, state_of in *.
    destruct (App.dispatch w req _ st) as [[[[t err]|e] st1] t1]; simpl in *;
      [|done].
    destruct (App.summarizable t) eqn:Es; simpl; [|auto].
    destruct (genai_generate w _ _ _); simpl; [|auto].
    split; [done|]. right. destruct Hx as [->| ->]; [discriminate Es | done].
  - rewrite api_process_after_dispatch. unfold result_of, state_of.
    destruct (Api.dispatch w req st) as [[[[t err]|e] st1] t1]; simpl; [|done].
    destruct (Api.summarizable t err) eqn:Es; simpl; [|auto].
    destruct (genai_generate w _ _ _); simpl; [|auto].
    split; [done|]. right. unfold Api.summarizable in Es.
    apply andb_prop in Es as [_ Ee]. by destruct err.
Qed.

(** ** When [/process] raises *)

Lemma staged_run_result {R A} (e : M R A) dir path c (st : State R) :
  fs_stable e →
  result_of ((os_makedirs dir ;;; file_save path c ;;;
              t <- e ;; os_remove path ;;; ret (t, @nil N)) st)
  = match result_of (e (Build_State (<[path := c]> (fs st)) (summaries_history st))) with
    | Returns t => Returns (t, [])
    | Raises x => Raises x
    end.
Proof.
  intros Hs.
  unfold bind, os_makedirs, file_save, os_remove, ret, result_of.
  cbn [fs summaries_history].
  specialize (Hs (Build_State (<[path := c]> (fs st)) (summaries_history st))).
  unfold state_of in Hs.
  destruct (e _) as [[[t|ex] [fs3 h3]] t3]; simpl in *; subst fs3; [|done].
  rewrite lookup_insert_eq. reflexivity.
Qed.

Lemma try_finally_remove_result {R A} (m : M R A) p (st : State R) b :
  fs_stable m → fs st !! p = Some b →
  result_of (try_finally m (os_remove p) st) = result_of (m st).
Proof.
  intros Hm Hp. specialize (Hm st).
  unfold state_of, result_of, try_finally, os_remove in *.
  destruct (m st) as [[r [fs1 h1]] t1]; simpl in *. subst fs1.
  rewrite Hp. reflexivity.
Qed.

Lemma returns_or_raises {A} (r : py_result A) e :
  is_returns r = true →
  match r with Returns t => Returns (t, @nil N) | Raises x => Raises x end
  ≠ Raises e.
Proof. destruct r; [discriminate 2 | discriminate 1]. Qed.

Lemma app_process_file_raises w f l (st : State App.SummaryRecord) e :
  result_of (App.process_file w f l st) = Raises e →
  declared_ext w f = lit ".txt" ∧ decode_utf8 w (content f) = Raises e.
Proof.
  unfold App.process_file, declared_ext. cbv zeta.
  set (ext := str_lower w _). set (path := os_path_join w _ _).
  destruct (bool_decide (ext ∈ App.valid_extensions)); [|discriminate].
  rewrite staged_run_result by apply app_extractors_fs_stable.
  destruct (bool_decide (ext = lit ".pdf")).
  { intros H. exfalso. revert H. apply returns_or_raises.
    apply never_raises_try_except; intros; apply never_raises_ret. }
  destruct (bool_decide (ext = lit ".docx")).
  { intros H. exfalso. revert H. apply returns_or_raises.
    apply never_raises_try_except; intros; apply never_raises_ret. }
  destruct (bool_decide (ext = lit ".txt")) eqn:Etxt.
  { apply bool_decide_eq_true_1 in Etxt.
    unfold call_on_file, result_of. simpl. rewrite lookup_insert_eq.
    destruct (decode_utf8 w (content f)); simpl; [discriminate|].
    intros [= ->]. done. }
  destruct (bool_decide (ext ∈ App.image_extensions)).
  { intros H. exfalso. revert H. apply returns_or_raises.
    apply never_raises_try_except; intros; apply never_raises_ret. }
  discriminate.
Qed.

Lemma bind_pair_never_raises {R} (m : M R pystr) (st : State R) e :
  never_raises m →
  result_of ((t <- m ;; ret (t, @nil N)) st) ≠ Raises e.
Proof.
  intros Hn. specialize (Hn st). unfold result_of, bind, ret in *.
  destruct (m st) as [[[t|x] s1] tr1]; simpl in *; discriminate.
Qed.

Lemma api_process_file_result w f (st : State Api.SummaryRecord) :
  result_of (Api.process_file w f st)
  = result_of
      ((if bool_decide (declared_ext w f = lit ".pdf") then
          t <- Api.extract_pdf_text w (tempfile_name w (fs st) (declared_ext w f)) ;;
          ret (t, [])
        else if bool_decide (declared_ext w f = lit ".docx") then
          t <- Api.extract_docx_text w (tempfile_name w (fs st) (declared_ext w f)) ;;
          ret (t, [])
        else if bool_decide (declared_ext w f ∈ Api.image_suffixes) then
          t <- Api.extract_image_text w (tempfile_name w (fs st) (declared_ext w f)) ;;
          ret (t, [])
        else if bool_decide (declared_ext w f = lit ".txt") then
          t <- call_on_file
                 (CallReadText (tempfile_name w (fs st) (declared_ext w f)))
                 (tempfile_name w (fs st) (declared_ext w f)) (decode_utf8 w) ;;
          ret (t, [])
        else ret ([], lit "Unsupported file type"))
         (Build_State
            (<[tempfile_name w (fs st) (declared_ext w f) := content f]>
               (<[tempfile_name w (fs st) (declared_ext w f) := []]> (fs st)))
            (summaries_history st))).
Proof.
  unfold Api.process_file, declared_ext. cbv zeta.
  set (ext := str_lower w _).
  unfold bind at 1. unfold Api.named_temporary_file at 1.
  unfold bind at 1. unfold file_save at 1. cbn [fs summaries_history].
  set (tmp := tempfile_name w (fs st) ext). set (st2 := Build_State _ _).
  pose proof (try_finally_remove_result _ tmp st2 (content f)
                (api_extractors_fs_stable w ext tmp)) as Hr.
  unfold result_of in *.
  destruct (try_finally _ _ st2) as [[r st3] t3]; simpl in *.
  apply Hr. subst st2. simpl. apply lookup_insert_eq.
Qed.

Lemma api_process_file_raises w f (st : State Api.SummaryRecord) e :
  result_of (Api.process_file w f st) = Raises e →
  declared_ext w f = lit ".txt" ∧ decode_utf8 w (content f) = Raises e.
Proof.
  rewrite api_process_file_result.
  destruct (bool_decide (declared_ext w f = lit ".pdf")).
  { intros H. exfalso. revert H. apply bind_pair_never_raises.
    apply never_raises_try_except; intros; apply never_raises_ret. }
  destruct (bool_decide (declared_ext w f = lit ".docx")).
  { intros H. exfalso. revert H. apply bind_pair_never_raises.
    apply never_raises_try_except; intros; apply never_raises_ret. }
  destruct (bool_decide (declared_ext w f ∈ Api.image_suffixes)).
  { intros H. exfalso. revert H. apply bind_pair_never_raises.
    apply never_raises_try_except; intros; apply never_raises_ret. }
  destruct (bool_decide (declared_ext w f = lit ".txt")) eqn:Etxt; [|discriminate].
  apply bool_decide_eq_true_1 in Etxt.
  unfold bind, call_on_file, result_of. simpl. rewrite lookup_insert_eq.
  destruct (decode_utf8 w (content f)); simpl; [discriminate|].
  intros [= ->]. done.
Qed.

Lemma app_process_url_never_raises w u : never_raises (App.process_url w u).
Proof. apply never_raises_try_except; intros; apply never_raises_ret. Qed.

Lemma api_process_url_never_raises w u : never_raises (Api.process_url w u).
Proof. apply never_raises_try_except; intros; apply never_raises_ret. Qed.

Lemma never_raises_not_raises {R A} (m : M R A) st e :
  never_raises m → result_of (m st) ≠ Raises e.
Proof. intros Hn H. specialize (Hn st). rewrite H in Hn. discriminate. Qed.

Lemma app_dispatch_raises w req l (st : State App.SummaryRecord) e :
  result_of (App.dispatch w req l st) = Raises e →
  ∃ f, uploaded_file req = Some f ∧ truthy (filename f) = true
       ∧ declared_ext w f = lit ".txt" ∧ decode_utf8 w (content f) = Raises e.
Proof.
  unfold App.dispatch.
  destruct (uploaded_file req) as [f|]; [destruct (truthy (filename f)) eqn:Ef|].
  - intros H. apply app_process_file_raises in H as [? ?]. eauto.
  - destruct (field_truthy (url_input req));
      [intros H; by apply never_raises_not_raises in H;
         [|apply app_process_url_never_raises]|].
    destruct (field_truthy (text_input req)); discriminate.
  - destruct (field_truthy (url_input req));
      [intros H; by apply never_raises_not_raises in H;
         [|apply app_process_url_never_raises]|].
    destruct (field_truthy (text_input req)); discriminate.
Qed.

Lemma api_dispatch_raises w req (st : State Api.SummaryRecord) e :
  result_of (Api.dispatch w req st) = Raises e →
  ∃ f, uploaded_file req = Some f ∧ truthy (filename f) = true
       ∧ declared_ext w f = lit ".txt" ∧ decode_utf8 w (content f) = Raises e.
Proof.
  unfold Api.dispatch.
  destruct (uploaded_file req) as [f|]; [destruct (truthy (filename f)) eqn:Ef|].
  - intros H. apply api_process_file_raises in H as [? ?]. eauto.
  - destruct (field_truthy (url_input req));
      [intros H; by apply never_raises_not_raises in H;
         [|apply api_process_url_never_raises]|].
    destruct (field_truthy (text_input req)); discriminate.
  - destruct (field_truthy (url_input req));
      [intros H; by apply never_raises_not_raises in H;
         [|apply api_process_url_never_raises]|].
    destruct (field_truthy (text_input req)); discriminate.
Qed.

Lemma api_txt_read_fault w f (st : State Api.SummaryRecord) e :
  declared_ext w f = lit ".txt" →
  decode_utf8 w (content f) = Raises e →
  result_of (Api.process_file w f st) = Raises e.
Proof.
  intros Hext He. rewrite api_process_file_result, Hext. simpl.
  unfold bind, call_on_file, result_of. simpl.
  rewrite lookup_insert_eq, He. reflexivity.
Qed.

(** X5: [/process] of [app.py] lets an exception out exactly when the
    request carries a file with extension [.txt] whose bytes cannot be
    decoded as UTF-8; the exception is the decoder's.  Nothing else (a
    missing input, a corrupt PDF, DOCX or image, an unreachable URL, a
    failing model) makes the route raise; creating the upload directory,
    saving the upload and removing the saved file are taken to succeed. *)
Theorem app_raises_iff_text_upload_undecodable (w : World) (req : Request)
    (st : State App.SummaryRecord) (e : pystr) :
  result_of (App.process w req st) = Raises e
  ↔ ∃ f, uploaded_file req = Some f ∧ truthy (filename f) = true
         ∧ declared_ext w f = lit ".txt"
         ∧ decode_utf8 w (content f) = Raises e.
Proof.
  rewrite app_process_after_dispatch. split.
  - intros H. apply (app_dispatch_raises w req (app_ocr_lang req) st).
    unfold result_of in *.
    destruct (App.dispatch w req _ st) as [[[[t err]|x] st1] t1]; simpl in *;
      [|by injection H as ->].
    destruct (App.summarizable t); [|discriminate].
    destruct (genai_generate w _ _ _); discriminate.
  - intros (f & Hf & Ht & Hext & He).
    rewrite app_dispatch_routing, (file_selected req f Hf Ht), Hf.
    by rewrite (app_txt_read_fault_leaks w f _ st e Hext He).
Qed.

Lemma app_raises_iff_text_upload_undecodable_witness :
  result_of (App.process blank_world (upload "notes.txt" [255]) fresh_state)
  = Raises (lit "'utf-8' codec can't decode byte").
Proof.
  apply (proj2 (app_raises_iff_text_upload_undecodable blank_world
                  (upload "notes.txt" [255]) fresh_state
                  (lit "'utf-8' codec can't decode byte"))).
  exists {| filename := lit "notes.txt"; content := [255] |}.
  repeat split; vm_compute; reflexivity.
Defined.

(** X6: the same holds for [/process] of [api/index.py]: it raises exactly
    on a [.txt] upload that is not valid UTF-8 (creating, writing and
    removing the temporary file being taken to succeed). *)
Theorem api_raises_iff_text_upload_undecodable (w : World) (req : Request)
    (st : State Api.SummaryRecord) (e : pystr) :
  result_of (Api.process w req st) = Raises e
  ↔ ∃ f, uploaded_file req = Some f ∧ truthy (filename f) = true
         ∧ declared_ext w f = lit ".txt"
         ∧ decode_utf8 w (content f) = Raises e.
Proof.
  rewrite api_process_after_dispatch. split.
  - intros H. apply (api_dispatch_raises w req st).
    unfold result_of in *.
    destruct (Api.dispatch w req st) as [[[[t err]|x] st1] t1]; simpl in *;
      [|by injection H as ->].
    destruct (Api.summarizable t err); [|discriminate].
    destruct (genai_generate w _ _ _); discriminate.
  - intros (f & Hf & Ht & Hext & He).
    pose proof (api_txt_read_fault w f st e Hext He) as Hr.
    rewrite api_dispatch_routing, (file_selected req f Hf Ht), Hf.
    unfold result_of in *.
    destruct (Api.process_file w f st) as [[[[t err]|x] st1] t1]; simpl in *;
      [discriminate | by injection Hr as ->].
Qed.

Lemma api_raises_iff_text_upload_undecodable_witness :
  result_of (Api.process blank_world (upload "notes.txt" [255]) fresh_state)
  = Raises (lit "'utf-8' codec can't decode byte").
Proof.
  apply (proj2 (api_raises_iff_text_upload_undecodable blank_world
                  (upload "notes.txt" [255]) fresh_state
                  (lit "'utf-8' codec can't decode byte"))).
  exists {| filename := lit "notes.txt"; content := [255] |}.
  repeat split; vm_compute; reflexivity.
Defined.

(** ** The URL channel *)

Lemma url_selected req u :
  file_truthy (uploaded_file req) = false →
  url_input req = Some u → truthy u = true →
  selected_channel req = Some UrlChannel.
Proof.
  intros Hf Hu Ht. unfold selected_channel. rewrite Hf, Hu. simpl. by rewrite Ht.
Qed.

Lemma text_selected req t :
  file_truthy (uploaded_file req) = false →
  field_truthy (url_input req) = false →
  text_input req = Some t → truthy t = true →
  selected_channel req = Some TextChannel.
Proof.
  intros Hf Hu Ht Htt. unfold selected_channel. rewrite Hf, Hu, Ht. simpl.
  by rewrite Htt.
Qed.

(** X7: a URL that cannot be fetched is reported, in both variants, with the
    library's message after the variant's prefix; exactly one HTTP call is
    made ([app.py]: bot header, 5 seconds; [api/index.py]: no header, 10
    seconds), the model is not called and the state does not change. *)
Theorem fetch_error_is_reported (w : World) (req : Request) (u e_app e_api : pystr)
    (st_app : State App.SummaryRecord) (st_api : State Api.SummaryRecord) :
  file_truthy (uploaded_file req) = false →
  url_input req = Some u →
  truthy u = true →
  requests_get w u (Some (lit "GlobalTextSummarizerBot/1.0")) 5 = Raises e_app →
  requests_get w u None 10 = Raises e_api →
  App.process w req st_app
  = (Returns {| summary := [];
                error_msg := sentinel ++ lit " Error fetching URL: " ++ e_app;
                history := summaries_history st_app |},
     st_app, [CallHttpGet u (Some (lit "GlobalTextSummarizerBot/1.0")) 5])
  ∧ Api.process w req st_api
    = (Returns {| summary := []; error_msg := lit "URL error: " ++ e_api;
                  history := summaries_history st_api |},
       st_api, [CallHttpGet u None 10]).
Proof.
  intros Hf Hu Ht Happ Hapi.
  pose proof (url_selected req u Hf Hu Ht) as Hsel. split.
  - rewrite app_process_after_dispatch, app_dispatch_routing, Hsel, Hu. simpl.
    unfold App.process_url, try_except, bind, call. rewrite Happ. reflexivity.
  - rewrite api_process_after_dispatch, api_dispatch_routing, Hsel, Hu. simpl.
    unfold Api.process_url, try_except, bind, call. rewrite Hapi. simpl.
    unfold Api.summarizable. reflexivity.
Qed.

Lemma fetch_error_is_reported_witness :
  App.process blank_world (url_request (lit "http://unreachable.invalid")) fresh_state
  = (Returns {| summary := [];
                error_msg := sentinel ++ lit " Error fetching URL: "
                             ++ lit "connection refused";
                history := [] |},
     fresh_state,
     [CallHttpGet (lit "http://unreachable.invalid")
        (Some (lit "GlobalTextSummarizerBot/1.0")) 5])
  ∧ Api.process blank_world (url_request (lit "http://unreachable.invalid")) fresh_state
    = (Returns {| summary := [];
                  error_msg := lit "URL error: " ++ lit "connection refused";
                  history := [] |},
       fresh_state, [CallHttpGet (lit "http://unreachable.invalid") None 10]).
Proof.
  apply (fetch_error_is_reported blank_world
           (url_request (lit "http://unreachable.invalid"))
           (lit "http://unreachable.invalid")
           (lit "connection refused") (lit "connection refused")
           fresh_state fresh_state); reflexivity.
Defined.

(** X8: a page that is fetched and has visible text is summarized by
    [app.py]: the text handed to the model is what BeautifulSoup extracts
    with newline separator and stripping, the answer is the summary, the
    error field is empty and one record is appended. *)
Theorem app_url_text_is_summarized (w : World) (req : Request) (u html s : pystr)
    (st : State App.SummaryRecord) :
  file_truthy (uploaded_file req) = false →
  url_input req = Some u →
  truthy u = true →
  requests_get w u (Some (lit "GlobalTextSummarizerBot/1.0")) 5 = Returns html →
  App.summarizable (soup_get_text w html nl true) = true →
  genai_generate w App.model_name
    (app_prompt req (soup_get_text w html nl true)) None = Returns s →
  App.process w req st
  = (Returns {| summary := s; error_msg := [];
                history := App.history_append (app_record w req s)
                             (summaries_history st) |},
     Build_State (fs st)
       (App.history_append (app_record w req s) (summaries_history st)),
     [CallHttpGet u (Some (lit "GlobalTextSummarizerBot/1.0")) 5;
      CallGenerate App.model_name
        (app_prompt req (soup_get_text w html nl true)) None]).
Proof.
  intros Hf Hu Ht Hget Hsum Hgen.
  pose proof (url_selected req u Hf Hu Ht) as Hsel.
  rewrite app_process_after_dispatch, app_dispatch_routing, Hsel, Hu. simpl.
  unfold App.process_url, try_except, bind, call, ret. rewrite Hget. simpl.
  rewrite Hsum, Hgen. reflexivity.
Qed.

Lemma app_url_text_is_summarized_witness :
  App.process office_world (url_request (lit "http://example.org")) fresh_state
  = (Returns {| summary := lit "A summary."; error_msg := [];
                history := App.history_append
                             (app_record office_world
                                (url_request (lit "http://example.org"))
                                (lit "A summary.")) [] |},
     Build_State ∅
       (App.history_append
          (app_record office_world (url_request (lit "http://example.org"))
             (lit "A summary.")) []),
     [CallHttpGet (lit "http://example.org")
        (Some (lit "GlobalTextSummarizerBot/1.0")) 5;
      CallGenerate App.model_name
        (app_prompt (url_request (lit "http://example.org")) (lit "News")) None]).
Proof.
  apply (app_url_text_is_summarized office_world
           (url_request (lit "http://example.org")) (lit "http://example.org")
           (lit "<p>News</p>") (lit "A summary.") fresh_state); reflexivity.
Defined.

(** ** The text channel *)

(** X9: literal text that passes the guard of [app.py] (not whitespace-only,
    not starting with the marker) goes to the model unchanged and without
    any extractor call.  If the model answers, the answer is the summary and
    a record with the request's options is appended; the requested length
    and format are recorded as sent, even when they are not among the known
    ones. *)
Theorem app_text_is_summarized (w : World) (req : Request) (t s : pystr)
    (st : State App.SummaryRecord) :
  file_truthy (uploaded_file req) = false →
  field_truthy (url_input req) = false →
  text_input req = Some t →
  App.summarizable t = true →
  genai_generate w App.model_name (app_prompt req t) None = Returns s →
  App.process w req st
  = (Returns {| summary := s; error_msg := [];
                history := App.history_append (app_record w req s)
                             (summaries_history st) |},
     Build_State (fs st)
       (App.history_append (app_record w req s) (summaries_history st)),
     [CallGenerate App.model_name (app_prompt req t) None]).
Proof.
  intros Hf Hu Ht Hsum Hgen.
  assert (Htt : truthy t = true).
  { destruct t; [discriminate Hsum | reflexivity]. }
  rewrite app_process_after_dispatch, app_dispatch_routing,
    (text_selected req t Hf Hu Ht Htt), Ht. simpl.
  rewrite Hsum, Hgen. reflexivity.
Qed.

Lemma app_text_is_summarized_witness :
  App.process office_world hello_request fresh_state
  = (Returns {| summary := lit "A summary."; error_msg := [];
                history := App.history_append
                             (app_record office_world hello_request (lit "A summary."))
                             [] |},
     Build_State ∅
       (App.history_append
          (app_record office_world hello_request (lit "A summary.")) []),
     [CallGenerate App.model_name
        (app_prompt hello_request (lit "Hello world")) None]).
Proof.
  apply (app_text_is_summarized office_world hello_request (lit "Hello world")
           (lit "A summary.") fresh_state); reflexivity.
Defined.

(** X10: when the model call fails on literal text, both variants answer
    with the provider's message after their prefix and an empty summary;
    the state, history included, is unchanged and the only call made is the
    model call. *)
Theorem summarization_failure_is_reported (w : World) (req : Request)
    (t e_app e_api : pystr)
    (st_app : State App.SummaryRecord) (st_api : State Api.SummaryRecord) :
  file_truthy (uploaded_file req) = false →
  field_truthy (url_input req) = false →
  text_input req = Some t →
  App.summarizable t = true →
  genai_generate w App.model_name (app_prompt req t) None = Raises e_app →
  genai_generate w Api.model_name (api_prompt req t)
    (Some (api_word_limit req * 2)) = Raises e_api →
  App.process w req st_app
  = (Returns {| summary := [];
                error_msg := sentinel ++ lit " Summarization failed: " ++ e_app;
                history := summaries_history st_app |},
     st_app, [CallGenerate App.model_name (app_prompt req t) None])
  ∧ Api.process w req st_api
    = (Returns {| summary := []; error_msg := lit "Gemini error: " ++ e_api;
                  history := summaries_history st_api |},
       st_api,
       [CallGenerate Api.model_name (api_prompt req t)
          (Some (api_word_limit req * 2))]).
Proof.
  intros Hf Hu Ht Hsum Happ Hapi.
  assert (Htt : truthy t = true).
  { destruct t; [discriminate Hsum | reflexivity]. }
  pose proof (text_selected req t Hf Hu Ht Htt) as Hsel. split.
  - rewrite app_process_after_dispatch, app_dispatch_routing, Hsel, Ht. simpl.
    rewrite Hsum, Happ. reflexivity.
  - rewrite api_process_after_dispatch, api_dispatch_routing, Hsel, Ht. simpl.
    unfold Api.summarizable. rewrite Htt. simpl. rewrite Hapi. reflexivity.
Qed.

Lemma summarization_failure_is_reported_witness :
  App.process quota_world hello_request fresh_state
  = (Returns {| summary := [];
                error_msg := sentinel ++ lit " Summarization failed: "
                             ++ lit "429 quota exceeded";
                history := [] |},
     fresh_state,
     [CallGenerate App.model_name (app_prompt hello_request (lit "Hello world")) None])
  ∧ Api.process quota_world hello_request fresh_state
    = (Returns {| summary := [];
                  error_msg := lit "Gemini error: " ++ lit "429 quota exceeded";
                  history := [] |},
       fresh_state,
       [CallGenerate Api.model_name (api_prompt hello_request (lit "Hello world"))
          (Some (api_word_limit hello_request * 2))]).
Proof.
  apply (summarization_failure_is_reported quota_world hello_request
           (lit "Hello world") (lit "429 quota exceeded") (lit "429 quota exceeded")
           fresh_state fresh_state); reflexivity.
Defined.

(** X11: literal text made of whitespace only is dropped by [app.py] without
    a word (no call, empty summary, empty error, state unchanged), while
    [api/index.py] sends it to the model: its only call is the model call
    with that text in the prompt. *)
Theorem whitespace_text_app_drops_api_sends (w : World) (req : Request) (t : pystr)
    (st_app : State App.SummaryRecord) (st_api : State Api.SummaryRecord) :
  file_truthy (uploaded_file req) = false →
  field_truthy (url_input req) = false →
  text_input req = Some t →
  truthy t = true →
  whitespace_only t = true →
  App.process w req st_app
  = (Returns {| summary := []; error_msg := [];
                history := summaries_history st_app |}, st_app, [])
  ∧ trace_of (Api.process w req st_api)
    = [CallGenerate Api.model_name (api_prompt req t)
         (Some (api_word_limit req * 2))].
Proof.
  intros Hf Hu Ht Htt Hw.
  pose proof (text_selected req t Hf Hu Ht Htt) as Hsel. split.
  - rewrite app_process_after_dispatch, app_dispatch_routing, Hsel, Ht. simpl.
    unfold App.summarizable. rewrite truthy_strip, Hw. reflexivity.
  - rewrite api_process_after_dispatch, api_dispatch_routing, Hsel, Ht. simpl.
    unfold Api.summarizable. rewrite Htt. simpl.
    destruct (genai_generate w _ _ _); reflexivity.
Qed.

Lemma whitespace_text_app_drops_api_sends_witness :
  App.process office_world (text_request (lit "   ")) fresh_state
  = (Returns {| summary := []; error_msg := []; history := [] |}, fresh_state, [])
  ∧ trace_of (Api.process office_world (text_request (lit "   ")) fresh_state)
    = [CallGenerate Api.model_name (api_prompt (text_request (lit "   ")) (lit "   "))
         (Some (api_word_limit (text_request (lit "   ")) * 2))].
Proof.
  apply (whitespace_text_app_drops_api_sends office_world
           (text_request (lit "   ")) (lit "   ") fresh_state fresh_state);
    reflexivity.
Defined.

(** ** What the library calls of a request look like *)

Lemma app_dispatch_discipline w req :
  calls_satisfy (app_call_ok w req) (App.dispatch w req (app_ocr_lang req)).
Proof.
  rewrite app_dispatch_routing. unfold selected_channel, file_truthy.
  destruct (uploaded_file req) as [f|] eqn:Hf;
    [destruct (truthy (filename f))|]; simpl.
  - unfold App.process_file, App.extract_pdf_text, App.extract_docx_text,
      App.extract_image_text.
    handler_walk ltac:(simpl; unfold app_staging_path; eauto).
  - destruct (url_input req) as [u|] eqn:Hu; simpl; [|].
    + destruct (truthy u); [|destruct (field_truthy (text_input req));
                              apply calls_satisfy_ret].
      unfold App.process_url. handler_walk ltac:(simpl; eauto).
    + destruct (field_truthy (text_input req)); apply calls_satisfy_ret.
  - destruct (url_input req) as [u|] eqn:Hu; simpl; [|].
    + destruct (truthy u); [|destruct (field_truthy (text_input req));
                              apply calls_satisfy_ret].
      unfold App.process_url. handler_walk ltac:(simpl; eauto).
    + destruct (field_truthy (text_input req)); apply calls_satisfy_ret.
Qed.

(** X12: every library call of a [/process] request to [app.py] is of the
    expected shape: files are created, read and removed at the staging path
    [Uploads/<name>] of the uploaded file only; a PDF is rendered for page 1
    only; OCR always runs in the language derived from the request's
    [input_lang], with [--psm 6]; only the request's URL is fetched, with
    the bot header and a 5 second timeout; and the model is asked for
    [gemini-2.5-flash] with the prompt built from the request's options and
    a text that passed the guard. *)
Theorem app_calls_are_disciplined (w : World) (req : Request)
    (st : State App.SummaryRecord) :
  Forall (app_call_ok w req) (trace_of (App.process w req st)).
Proof.
  rewrite app_process_after_dispatch.
  pose proof (app_dispatch_discipline w req st) as Hd. unfold trace_of in *.
  destruct (App.dispatch w req _ st) as [[[[t err]|e] st1] t1]; simpl in *;
    [|exact Hd].
  destruct (App.summarizable t) eqn:Es; [|exact Hd].
  destruct (genai_generate w _ _ _); simpl;
    (apply Forall_app; split; [exact Hd|]); repeat constructor; simpl; eauto.
Qed.

Lemma calls_satisfy_bind_at {R A B} (P : Call → Prop) (m : M R A)
    (k : A → M R B) (st : State R) :
  Forall P (trace_of (m st)) →
  (∀ a st1 t1, m st = (Returns a, st1, t1) → Forall P (trace_of (k a st1))) →
  Forall P (trace_of (bind m k st)).
Proof.
  intros Hm Hk. unfold trace_of, bind in *.
  destruct (m st) as [[[a|e] st1] t1]; simpl in *; [|exact Hm].
  specialize (Hk a st1 t1 eq_refl).
  destruct (k a st1) as [[r st2] t2]; simpl in *.
  apply Forall_app; split; assumption.
Qed.

Lemma api_process_file_discipline w req f (st : State Api.SummaryRecord) :
  uploaded_file req = Some f →
  Forall (api_call_ok w req st) (trace_of (Api.process_file w f st)).
Proof.
  intros Hf. unfold Api.process_file. cbv zeta.
  apply calls_satisfy_bind_at.
  - repeat constructor. simpl. unfold declared_ext. eauto.
  - intros a st1 t1 [= <- <- <-].
    match goal with
    | |- Forall ?P (trace_of (?m ?s)) => generalize s; change (calls_satisfy P m)
    end.
    unfold Api.extract_pdf_text, Api.extract_docx_text, Api.extract_image_text.
    handler_walk ltac:(simpl; unfold declared_ext; eauto).
Qed.

Lemma api_dispatch_discipline w req (st : State Api.SummaryRecord) :
  Forall (api_call_ok w req st) (trace_of (Api.dispatch w req st)).
Proof.
  rewrite api_dispatch_routing. unfold selected_channel, file_truthy.
  destruct (uploaded_file req) as [f|] eqn:Hf;
    [destruct (truthy (filename f))|]; simpl.
  - by apply api_process_file_discipline.
  - destruct (url_input req) as [u|] eqn:Hu; simpl; [|].
    + destruct (truthy u); [|destruct (field_truthy (text_input req));
                              apply calls_satisfy_ret].
      assert (H : calls_satisfy (api_call_ok w req st) (Api.process_url w u));
        [|apply H].
      unfold Api.process_url. handler_walk ltac:(simpl; eauto).
    + destruct (field_truthy (text_input req)); apply calls_satisfy_ret.
  - destruct (url_input req) as [u|] eqn:Hu; simpl; [|].
    + destruct (truthy u); [|destruct (field_truthy (text_input req));
                              apply calls_satisfy_ret].
      assert (H : calls_satisfy (api_call_ok w req st) (Api.process_url w u));
        [|apply H].
      unfold Api.process_url. handler_walk ltac:(simpl; eauto).
    + destruct (field_truthy (text_input req)); apply calls_satisfy_ret.
Qed.

(** X13: every library call of a [/process] request to [api/index.py] is of
    the expected shape: files are created, written, read and removed at the
    temporary path only; a PDF is rendered for page 1 only; OCR never gets a
    language or a configuration, whatever the request says; only the
    request's URL is fetched, without header, with a 10 second timeout; and
    the model is asked for [gemini-1.5-turbo] with twice the word limit as
    output-size hint and a non-empty text in the prompt. *)
Theorem api_calls_are_disciplined (w : World) (req : Request)
    (st : State Api.SummaryRecord) :
  Forall (api_call_ok w req st) (trace_of (Api.process w req st)).
Proof.
  rewrite api_process_after_dispatch.
  pose proof (api_dispatch_discipline w req st) as Hd. unfold trace_of in *.
  destruct (Api.dispatch w req st) as [[[[t err]|e] st1] t1]; simpl in *;
    [|exact Hd].
  destruct (Api.summarizable t err) eqn:Es; [|exact Hd].
  apply andb_prop in Es as [Et _].
  destruct (genai_generate w _ _ _); simpl;
    (apply Forall_app; split; [exact Hd|]); repeat constructor; simpl; eauto.
Qed.

(** ** How many OCR and model calls a request makes *)

Lemma count_calls_app P t1 t2 :
  count_calls P (t1 ++ t2) = (count_calls P t1 + count_calls P t2)%nat.
Proof. induction t1 as [|c t1 IH]; simpl; [done|]. rewrite IH. lia. Qed.

Lemma count_calls_none P t :
  Forall (fun c => P c = false) t → count_calls P t = 0%nat.
Proof. induction 1 as [|c t Hc _ IH]; simpl; [done|]. by rewrite Hc, IH. Qed.

Lemma calls_at_most_weaken {R A} a b P (m : M R A) :
  (a ≤ b)%nat → calls_at_most a P m → calls_at_most b P m.
Proof. intros Hab Hm st. specialize (Hm st). lia. Qed.

Lemma calls_at_most_none {R A} P (m : M R A) :
  calls_satisfy (fun c => P c = false) m → calls_at_most 0 P m.
Proof. intros Hm st. by rewrite (count_calls_none P _ (Hm st)). Qed.

Lemma calls_at_most_bind {R A B} a b P (m : M R A) (k : A → M R B) :
  calls_at_most a P m → (∀ x, calls_at_most b P (k x)) →
  calls_at_most (a + b) P (bind m k).
Proof.
  intros Hm Hk st. specialize (Hm st). unfold trace_of, bind in *.
  destruct (m st) as [[[x|e] st1] t1]; simpl in *; [|lia].
  specialize (Hk x st1). unfold trace_of in Hk.
  destruct (k x st1) as [[r st2] t2]; simpl in *.
  rewrite count_calls_app. lia.
Qed.

Lemma calls_at_most_try_finally {R A} a b P (m : M R A) (c : M R unit) :
  calls_at_most a P m → calls_at_most b P c →
  calls_at_most (a + b) P (try_finally m c).
Proof.
  intros Hm Hc st. specialize (Hm st). unfold trace_of, try_finally in *.
  destruct (m st) as [[r st1] t1]; simpl in *.
  specialize (Hc st1). unfold trace_of in Hc.
  destruct (c st1) as [[[u|e] st2] t2]; simpl in *;
    rewrite count_calls_app; lia.
Qed.

Lemma app_pdf_at_most_one_ocr w p l :
  calls_at_most 1 is_ocr_call (App.extract_pdf_text w p l).
Proof.
  intros st. unfold App.extract_pdf_text, try_except, bind, call_on_file, trace_of.
  destruct (fs st !! p) as [b|] eqn:Hp; simpl; [|lia].
  destruct (pdfminer_extract_text w b) as [text|]; simpl; [|lia].
  destruct (truthy (strip text)); simpl; [lia|].
  rewrite Hp.
  destruct (pdf2image_pages w b) as [pages|]; simpl; [|lia].
  rewrite page_range_first.
  destruct pages as [|page1 rest]; simpl; [lia|].
  unfold bind, call. destruct (tesseract w page1 _ _); simpl; lia.
Qed.

Lemma api_pdf_at_most_one_ocr w p :
  calls_at_most 1 is_ocr_call (Api.extract_pdf_text w p).
Proof.
  intros st. unfold Api.extract_pdf_text, try_except, bind, call_on_file, trace_of.
  destruct (fs st !! p) as [b|] eqn:Hp; simpl; [|lia].
  destruct (pdfminer_extract_text w b) as [text|]; simpl; [|lia].
  destruct (truthy (strip text)); simpl; [lia|].
  rewrite Hp.
  destruct (pdf2image_pages w b) as [pages|]; simpl; [|lia].
  rewrite page_range_first.
  destruct pages as [|page1 rest]; simpl; [lia|].
  unfold bind, call. destruct (tesseract w page1 _ _); simpl; lia.
Qed.

Lemma app_image_at_most_one_ocr w p l :
  calls_at_most 1 is_ocr_call (App.extract_image_text w p l).
Proof.
  intros st. unfold App.extract_image_text, try_except, bind, call_on_file,
    call, trace_of.
  destruct (fs st !! p) as [b|]; simpl; [|lia].
  destruct (pil_open w b) as [img|]; simpl; [|lia].
  destruct (tesseract w _ _ _); simpl; lia.
Qed.

Lemma api_image_at_most_one_ocr w p :
  calls_at_most 1 is_ocr_call (Api.extract_image_text w p).
Proof.
  intros st. unfold Api.extract_image_text, try_except, bind, call_on_file,
    call, trace_of.
  destruct (fs st !! p) as [b|]; simpl; [|lia].
  destruct (pil_open w b) as [img|]; simpl; [|lia].
  destruct (tesseract w _ _ _); simpl; lia.
Qed.

Lemma no_ocr_calls {R A} (m : M R A) :
  calls_satisfy (fun c => is_ocr_call c = false) m →
  calls_at_most 1 is_ocr_call m.
Proof.
  intros H. apply (calls_at_most_weaken 0); [lia|]. by apply calls_at_most_none.
Qed.

Lemma app_dispatch_at_most_one_ocr w req l :
  calls_at_most 1 is_ocr_call (App.dispatch w req l).
Proof.
  rewrite app_dispatch_routing.
  destruct (selected_channel req) as [[| |]|];
    try (apply no_ocr_calls; apply calls_satisfy_ret).
  - destruct (uploaded_file req) as [f|];
      [|apply no_ocr_calls; apply calls_satisfy_ret].
    unfold App.process_file. cbv zeta.
    destruct (bool_decide (_ ∈ App.valid_extensions));
      [|apply no_ocr_calls; apply calls_satisfy_ret].
    apply (calls_at_most_bind 0 1);
      [apply calls_at_most_none; handler_walk ltac:(reflexivity)|intros _].
    apply (calls_at_most_bind 0 1);
      [apply calls_at_most_none; handler_walk ltac:(reflexivity)|intros _].
    apply (calls_at_most_bind 1 0);
      [|intros; apply calls_at_most_none; handler_walk ltac:(reflexivity)].
    destruct (bool_decide _); [apply app_pdf_at_most_one_ocr|].
    destruct (bool_decide _);
      [apply no_ocr_calls; unfold App.extract_docx_text;
       handler_walk ltac:(reflexivity)|].
    destruct (bool_decide _);
      [apply no_ocr_calls; handler_walk ltac:(reflexivity)|].
    destruct (bool_decide _); [apply app_image_at_most_one_ocr|].
    apply no_ocr_calls; apply calls_satisfy_ret.
  - apply no_ocr_calls. unfold App.process_url. handler_walk ltac:(reflexivity).
Qed.

Lemma api_dispatch_at_most_one_ocr w req :
  calls_at_most 1 is_ocr_call (Api.dispatch w req).
Proof.
  rewrite api_dispatch_routing.
  destruct (selected_channel req) as [[| |]|];
    try (apply no_ocr_calls; apply calls_satisfy_ret).
  - destruct (uploaded_file req) as [f|];
      [|apply no_ocr_calls; apply calls_satisfy_ret].
    unfold Api.process_file. cbv zeta.
    apply (calls_at_most_bind 0 1);
      [apply calls_at_most_none; intros st; repeat constructor|intros path].
    apply (calls_at_most_bind 0 1);
      [apply calls_at_most_none; handler_walk ltac:(reflexivity)|intros _].
    apply (calls_at_most_try_finally 1 0);
      [|apply calls_at_most_none; handler_walk ltac:(reflexivity)].
    destruct (bool_decide _).
    { apply (calls_at_most_bind 1 0); [apply api_pdf_at_most_one_ocr|].
      intros; apply calls_at_most_none, calls_satisfy_ret. }
    destruct (bool_decide _).
    { apply no_ocr_calls. unfold Api.extract_docx_text.
      handler_walk ltac:(reflexivity). }
    destruct (bool_decide _).
    { apply (calls_at_most_bind 1 0); [apply api_image_at_most_one_ocr|].
      intros; apply calls_at_most_none, calls_satisfy_ret. }
    destruct (bool_decide _);
      apply no_ocr_calls; handler_walk ltac:(reflexivity).
  - apply no_ocr_calls. unfold Api.process_url. handler_walk ltac:(reflexivity).
Qed.

(** X14: one [/process] request, in either variant, runs OCR at most once
    (whatever the number of pages of an uploaded PDF) and calls the model at
    most once, and a model call is always the last library call of the
    request. *)
Theorem at_most_one_ocr_and_model_call (w : World) (req : Request) :
  (∀ st, (count_calls is_ocr_call (trace_of (App.process w req st)) ≤ 1)%nat
         ∧ (count_calls is_generate_call (trace_of (App.process w req st)) ≤ 1)%nat
         ∧ count_calls is_generate_call
             (removelast (trace_of (App.process w req st))) = 0%nat)
  ∧ (∀ st, (count_calls is_ocr_call (trace_of (Api.process w req st)) ≤ 1)%nat
           ∧ (count_calls is_generate_call (trace_of (Api.process w req st)) ≤ 1)%nat
           ∧ count_calls is_generate_call
               (removelast (trace_of (Api.process w req st))) = 0%nat).
Proof.
  split; intros st.
  - rewrite app_process_after_dispatch.
    pose proof (app_dispatch_at_most_one_ocr w req (app_ocr_lang req) st) as Ho.
    pose proof (count_calls_none is_generate_call _
                  (app_dispatch_no_generate w req (app_ocr_lang req) st)) as Hg.
    unfold trace_of in *.
    destruct (App.dispatch w req _ st) as [[[[t err]|e] st1] t1]; simpl in *.
    + assert (Hr : count_calls is_generate_call (removelast t1) = 0%nat).
      { clear -Hg. induction t1 as [|c [|c' t1] IH]; simpl in *; [done..|].
        destruct (is_generate_call c); [discriminate|]. apply IH. exact Hg. }
      destruct (App.summarizable t); simpl; [|repeat split; [lia..|exact Hr]].
      destruct (genai_generate w _ _ _); simpl;
        rewrite !count_calls_app, removelast_last, Hg; simpl; lia.
    + assert (Hr : count_calls is_generate_call (removelast t1) = 0%nat).
      { clear -Hg. induction t1 as [|c [|c' t1] IH]; simpl in *; [done..|].
        destruct (is_generate_call c); [discriminate|]. apply IH. exact Hg. }
      repeat split; [lia..|exact Hr].
  - rewrite api_process_after_dispatch.
    pose proof (api_dispatch_at_most_one_ocr w req st) as Ho.
    pose proof (count_calls_none is_generate_call _
                  (api_dispatch_no_generate w req st)) as Hg.
    unfold trace_of in *.
    destruct (Api.dispatch w req st) as [[[[t err]|e] st1] t1]; simpl in *.
    + assert (Hr : count_calls is_generate_call (removelast t1) = 0%nat).
      { clear -Hg. induction t1 as [|c [|c' t1] IH]; simpl in *; [done..|].
        destruct (is_generate_call c); [discriminate|]. apply IH. exact Hg. }
      destruct (Api.summarizable t err); simpl; [|repeat split; [lia..|exact Hr]].
      destruct (genai_generate w _ _ _); simpl;
        rewrite !count_calls_app, removelast_last, Hg; simpl; lia.
    + assert (Hr : count_calls is_generate_call (removelast t1) = 0%nat).
      { clear -Hg. induction t1 as [|c [|c' t1] IH]; simpl in *; [done..|].
        destruct (is_generate_call c); [discriminate|]. apply IH. exact Hg. }
      repeat split; [lia..|exact Hr].
Qed.

(** ** The two ways of trimming the history *)

(** X15: on a history of at most five records, which is all either variant
    ever holds, trimming by one [pop(0)] ([app.py]) and trimming by the
    slice [[-5:]] ([api/index.py]) give the same list; the new record is its
    last element and the list still has at most five records. *)
Theorem history_append_variants_agree (A : Type) (r : A) (h : list A) :
  (length h ≤ 5)%nat →
  App.history_append r h = Api.history_append r h
  ∧ last (App.history_append r h) = Some r
  ∧ (length (App.history_append r h) ≤ 5)%nat.
Proof.
  intros Hlen. unfold App.history_append, Api.history_append, Api.last_five.
  rewrite length_app. simpl.
  destruct (decide _) as [Hlt|Hge].
  - assert (length h = 5)%nat as Hfive by lia.
    replace (length h + 1 - 5)%nat with 1%nat by lia.
    rewrite drop_app_le by lia.
    rewrite last_snoc, length_app, length_drop. simpl.
    split; [reflexivity | split; [reflexivity | lia]].
  - replace (length h + 1 - 5)%nat with 0%nat by lia.
    rewrite drop_0, last_snoc, length_app. simpl.
    split; [reflexivity | split; [reflexivity | lia]].
Qed.

Lemma history_append_variants_agree_witness :
  App.history_append 6%nat [1; 2; 3; 4; 5]%nat
  = Api.history_append 6%nat [1; 2; 3; 4; 5]%nat
  ∧ last (App.history_append 6%nat [1; 2; 3; 4; 5]%nat) = Some 6%nat
  ∧ (length (App.history_append 6%nat [1; 2; 3; 4; 5]%nat) ≤ 5)%nat.
Proof.
  apply (history_append_variants_agree nat 6%nat [1; 2; 3; 4; 5]%nat).
  simpl. lia.
Defined.

(** Beyond five records the two differ: one [pop(0)] removes one record. *)
Example history_append_variants_differ :
  App.history_append 8%nat [1; 2; 3; 4; 5; 6; 7]%nat = [2; 3; 4; 5; 6; 7; 8]%nat
  ∧ Api.history_append 8%nat [1; 2; 3; 4; 5; 6; 7]%nat = [4; 5; 6; 7; 8]%nat.
Proof. split; reflexivity. Qed.

(** ** Option lookups *)

(** X16: the OCR language of [app.py] is always one of the seven codes of
    its table: a listed language name gives the code at the same position,
    any other name (a different spelling or case included) gives [eng].
    The word limit of both variants is always 100, 200 or 300, and 200 for
    every length other than [Short] and [Long]. *)
Theorem language_and_length_lookup :
  (∀ name, App.ocr_lang_map_get name ∈ ocr_codes)
  ∧ (∀ i name code,
       language_names !! i = Some name → ocr_codes !! i = Some code →
       App.ocr_lang_map_get name = code)
  ∧ (∀ name, name ∉ language_names → App.ocr_lang_map_get name = lit "eng")
  ∧ (∀ len, length_map_get len ∈ [100; 200; 300])
  ∧ (∀ len, len ≠ lit "Short" → len ≠ lit "Long" → length_map_get len = 200).
Proof.
  repeat split.
  - intros name. unfold App.ocr_lang_map_get, ocr_codes.
    repeat case_bool_decide; repeat constructor.
  - intros i name code.
    do 7 (destruct i as [|i]; simpl;
          [intros [= <-] [= <-]; vm_compute; reflexivity|]).
    discriminate.
  - intros name. unfold language_names. rewrite !not_elem_of_cons.
    intros (H1 & H2 & H3 & H4 & H5 & H6 & H7 & _).
    unfold App.ocr_lang_map_get.
    by rewrite !bool_decide_eq_false_2 by assumption.
  - intros len. unfold length_map_get.
    repeat case_bool_decide; repeat constructor.
  - intros len H1 H2. unfold length_map_get.
    rewrite (bool_decide_eq_false_2 _ H1), (bool_decide_eq_false_2 _ H2).
    by case_bool_decide.
Qed.

(** ** End-to-end runs of the file channel *)



(** X18: a PDF upload to [api/index.py] with a text layer that is not
    blank: a temporary file is created and written, only the text layer is
    read (no rendering, no OCR), the temporary file is removed, and the text
    is summarized with twice the word limit as output-size hint; the answer
    is returned and recorded with the current time. *)
Theorem api_pdf_text_layer_is_summarized (w : World) (req : Request)
    (f : FileStorage) (text s : pystr) (st : State Api.SummaryRecord) :
  uploaded_file req = Some f →
  truthy (filename f) = true →
  declared_ext w f = lit ".pdf" →
  pdfminer_extract_text w (content f) = Returns text →
  whitespace_only text = false →
  genai_generate w Api.model_name (api_prompt req text)
    (Some (api_word_limit req * 2)) = Returns s →
  Api.process w req st
  = (Returns {| summary := s; error_msg := [];
                history := Api.history_append (api_record w s)
                             (summaries_history st) |},
     Build_State (delete (tempfile_name w (fs st) (lit ".pdf")) (fs st))
       (Api.history_append (api_record w s) (summaries_history st)),
     [CallTempfile (tempfile_name w (fs st) (lit ".pdf"));
      CallSave (tempfile_name w (fs st) (lit ".pdf"));
      CallPdfText (tempfile_name w (fs st) (lit ".pdf"));
      CallRemove (tempfile_name w (fs st) (lit ".pdf"));
      CallGenerate Api.model_name (api_prompt req text)
        (Some (api_word_limit req * 2))]).
Proof.
  intros Hf Ht Hext Hpdf Hw Hgen.
  assert (Htext : truthy text = true).
  { destruct text; [discriminate Hw | reflexivity]. }
  rewrite api_process_after_dispatch, api_dispatch_routing,
    (file_selected req f Hf Ht), Hf, (api_routes_pdf w f Hext).
  unfold bind at 1. unfold Api.named_temporary_file at 1.
  unfold bind at 1. unfold file_save at 1. cbn [fs summaries_history].
  set (tmp := tempfile_name w (fs st) (lit ".pdf")).
  unfold try_finally, bind.
  rewrite (api_pdf_text_layer w tmp _ (content f) text)
    by (first [apply lookup_insert_eq | assumption]).
  unfold ret, os_remove. cbn [fs summaries_history].
  rewrite lookup_insert_eq. simpl.
  unfold Api.summarizable. rewrite Htext. simpl. rewrite Hgen.
  by rewrite !delete_insert_eq.
Qed.

Lemma api_pdf_text_layer_is_summarized_witness :
  Api.process office_world (upload "report.pdf" [37; 80; 68; 70]) fresh_state
  = (Returns {| summary := lit "A summary."; error_msg := [];
                history := Api.history_append
                             (api_record office_world (lit "A summary.")) [] |},
     Build_State (delete (tempfile_name office_world ∅ (lit ".pdf")) ∅)
       (Api.history_append (api_record office_world (lit "A summary.")) []),
     [CallTempfile (tempfile_name office_world ∅ (lit ".pdf"));
      CallSave (tempfile_name office_world ∅ (lit ".pdf"));
      CallPdfText (tempfile_name office_world ∅ (lit ".pdf"));
      CallRemove (tempfile_name office_world ∅ (lit ".pdf"));
      CallGenerate Api.model_name
        (api_prompt (upload "report.pdf" [37; 80; 68; 70]) (lit "Annual report"))
        (Some (api_word_limit (upload "report.pdf" [37; 80; 68; 70]) * 2))]).
Proof.
  apply (api_pdf_text_layer_is_summarized office_world
           (upload "report.pdf" [37; 80; 68; 70])
           {| filename := lit "report.pdf"; content := [37; 80; 68; 70] |}
           (lit "Annual report") (lit "A summary.") fresh_state);
    reflexivity.
Defined.
